(** * heavyai.connection: load pipeline and IPC result retrieval

    A shallow embedding of [src/heavyai/connection.py].  The methods of
    [Connection] are written in a small state-and-exception monad: the
    state is the connection object (its [_tdf] slot) together with the
    chronological log of the effects the method has issued so far (Thrift
    RPCs, shared-memory attach and detach).  Everything the module imports
    (the Thrift client, pyarrow, the ipc extension, the pandas loaders) is
    a field of a [World] record, so every statement below is quantified
    over all behaviours of those collaborators, including the ones where
    they raise. *)

From Stdlib Require Import List ZArith Bool String Ascii Lia ZifyNat.
From Stdlib Require Import Strings.Byte.
Import ListNotations.
Open Scope string_scope.
Open Scope Z_scope.
Open Scope list_scope.

Set Implicit Arguments.

(** ** Python values that reach the dispatch code *)

(** The values of [method] and [create] this development follows:
    strings, booleans, integers and [None].  Floats and other objects a
    caller could pass are not represented, so no statement below is about
    every Python object. *)
Inductive PyVal : Type :=
| PyStr (s : string)
| PyBool (b : bool)
| PyInt (z : Z)
| PyNone.

Definition Z_of_bool (b : bool) : Z := if b then 1 else 0.

(** Python's [==]: [bool] is a subclass of [int], so [True == 1]. *)
Definition py_eq (a b : PyVal) : bool :=
  match a, b with
  | PyStr s, PyStr t => String.eqb s t
  | PyBool x, PyBool y => Bool.eqb x y
  | PyBool x, PyInt z => Z.eqb (Z_of_bool x) z
  | PyInt z, PyBool y => Z.eqb z (Z_of_bool y)
  | PyInt x, PyInt y => Z.eqb x y
  | PyNone, PyNone => true
  | _, _ => false
  end.

(** [x in [a, b, ...]] on a list literal. *)
Definition py_in (x : PyVal) (l : list PyVal) : bool :=
  existsb (py_eq x) l.

(** Truth value of an object in an [if]. *)
Definition py_truthy (v : PyVal) : bool :=
  match v with
  | PyStr s => negb (String.eqb s "")
  | PyBool b => b
  | PyInt z => negb (Z.eqb z 0)
  | PyNone => false
  end.

Definition bytes := list byte.

(** ** Thrift types *)

(** [heavydb.common.ttypes.TDeviceType]. *)
Inductive TDeviceType : Type := CPU | GPU.

(** [heavydb.thrift.ttypes.TArrowTransport].  A caller may pass any
    object for [transport_method]; [UNKNOWN_TRANSPORT] stands for every
    value that compares unequal to both members of the enum. *)
Inductive TArrowTransport : Type :=
| SHARED_MEMORY
| WIRE
| UNKNOWN_TRANSPORT (raw : Z).

Definition transport_eqb (a b : TArrowTransport) : bool :=
  match a, b with
  | SHARED_MEMORY, SHARED_MEMORY => true
  | WIRE, WIRE => true
  | UNKNOWN_TRANSPORT x, UNKNOWN_TRANSPORT y => Z.eqb x y
  | _, _ => false
  end.

(** The server-issued result descriptor; the fields are the ones
    [select_ipc] reads. *)
Record TDataFrame : Type := mkTDataFrame {
  df_buffer : bytes;
  df_handle : bytes;
  df_size : Z
}.

Record TColumnType : Type := mkTColumnType {
  col_name : string;
  col_type : string
}.

Record ColumnDetails : Type := mkColumnDetails {
  name : string;
  type : string;
  nullable : bool;
  precision : Z;
  scale : Z;
  comp_param : Z;
  encoding : string
}.

Record TColumn : Type := mkTColumn {
  col_data : list PyVal;
  col_nulls : list bool
}.

Record TStringValue : Type := mkTStringValue {
  str_val : string;
  is_null : bool
}.

Definition TStringRow := list TStringValue.

(** ** Tabular data *)

(** The contents of a data frame ([pandas.DataFrame] or
    [cudf.DataFrame]). *)
Record FrameData : Type := mkFrameData {
  index : list PyVal;
  columns : list string;
  rows : list (list PyVal)
}.

(** Modelled from the spec: [heavyai._mutators] ([set_tdf], [get_tdf]) is
    not part of the sources; [descriptor_tag] is the tag that links a
    retrieved table to the descriptor that produced it.  [None] is a frame
    on which no [get_tdf] has been bound, such as one the caller built.
    The record is the data frame object as the release path sees it. *)
Record Frame : Type := mkFrame {
  frame : FrameData;
  descriptor_tag : option TDataFrame
}.

(** A frame straight out of its constructor. *)
Definition plain (d : FrameData) : Frame := mkFrame d None.

Record ArrowTable : Type := mkArrowTable {
  schema : list string;
  batches : list (list PyVal)
}.

(** What a caller hands to [load_table] as [data]. *)
Inductive Data : Type :=
| PdDataFrame (df : Frame)
| PaTable (t : ArrowTable)
| PaRecordBatch (t : ArrowTable)
| TupleSeq (tuples : list (list PyVal))
| OtherObject (repr : string).

Definition is_pd_DataFrame (d : Data) : bool :=
  match d with PdDataFrame _ => true | _ => false end.
Definition is_pa_Table (d : Data) : bool :=
  match d with PaTable _ => true | _ => false end.
Definition is_pa_RecordBatch (d : Data) : bool :=
  match d with PaRecordBatch _ => true | _ => false end.

(** [DataFrame.itertuples(index=..., name=None)]. *)
Fixpoint zip_index (idx : list PyVal) (rs : list (list PyVal))
  : list (list PyVal) :=
  match idx, rs with
  | i :: idx', r :: rs' => (i :: r) :: zip_index idx' rs'
  | _, _ => []
  end.

Definition itertuples (df : Frame) (with_index : bool) : list (list PyVal) :=
  if with_index
  then zip_index (index (frame df)) (rows (frame df))
  else rows (frame df).

(** ** Exceptions *)

Inductive Exn : Type :=
| ValueError_create (create : PyVal)
    (* "Unexpected value for create" *)
| ValueError_column_count (frame_columns table_columns : nat)
    (* "Number of columns in dataframe ... does not match ..." *)
| TypeError_method (method : PyVal)
    (* "Method must be one of {'infer', 'arrow', 'columnar', 'rows'}" *)
| TypeError_unknown_type
    (* "Unknown type ..." *)
| RuntimeError_transport
    (* "The specified transport type is not supported." *)
| ImportError_cudf
    (* "The 'cudf' package is required for `select_ipc_gpu`" *)
| AttributeError_get_tdf
    (* the frame has no attribute get_tdf *)
| Foreign (what : string).
    (* anything raised inside a collaborator *)

Inductive Outcome (A : Type) : Type :=
| Ok (a : A)
| Raise (e : Exn).
Arguments Ok {A} a.
Arguments Raise {A} e.

(** ** Effects *)

Inductive Event : Type :=
| RpcGetTables
| RpcCreateTable (table_name : string) (row_desc : list TColumnType)
| RpcGetTableDetails (table_name : string)
| RpcLoadTable (table_name : string) (input : list TStringRow)
    (column_names : list string)
| RpcLoadTableBinaryColumnar (table_name : string) (cols : list TColumn)
    (column_names : list string)
| RpcLoadTableBinaryArrow (table_name : string) (payload : bytes)
    (column_names : list string)
| RpcSqlExecuteDf (query : string) (device_type device_id first_n : Z)
    (transport_method : TArrowTransport)
| RpcSqlExecuteGdf (query : string) (device_id first_n : Z)
| RpcDeallocateDf (df : TDataFrame) (device_type : TDeviceType)
    (device_id : Z)
| RegisterRuntimeUdfs
| ShmAttach (handle : bytes) (size : Z)
| ShmDetach (address : Z).

Definition Trace := list Event.

(** Calls on [self._client]: they go over the network. *)
Definition is_rpc (e : Event) : bool :=
  match e with
  | RegisterRuntimeUdfs | ShmAttach _ _ | ShmDetach _ => false
  | _ => true
  end.

Definition is_load_rpc (e : Event) : bool :=
  match e with
  | RpcLoadTable _ _ _
  | RpcLoadTableBinaryColumnar _ _ _
  | RpcLoadTableBinaryArrow _ _ _ => true
  | _ => false
  end.

Definition is_columnar_load (e : Event) : bool :=
  match e with RpcLoadTableBinaryColumnar _ _ _ => true | _ => false end.
Definition is_rowwise_load (e : Event) : bool :=
  match e with RpcLoadTable _ _ _ => true | _ => false end.
Definition is_deallocate (e : Event) : bool :=
  match e with RpcDeallocateDf _ _ _ => true | _ => false end.
Definition is_detach (e : Event) : bool :=
  match e with ShmDetach _ => true | _ => false end.

Definition count (p : Event -> bool) (t : Trace) : nat :=
  List.length (filter p t).

(** ** The connection object *)

Record Conn : Type := mkConn {
  _session : string;
  _tdf : option TDataFrame;
  trace : Trace
}.

Definition log (e : Event) (c : Conn) : Conn :=
  mkConn (_session c) (_tdf c) (trace c ++ [e]).

Definition store_tdf (t : TDataFrame) (c : Conn) : Conn :=
  mkConn (_session c) (Some t) (trace c).

(** ** The monad *)

Definition M (A : Type) : Type := Conn -> Outcome A * Conn.

Definition ret {A} (a : A) : M A := fun c => (Ok a, c).

Definition raise {A} (e : Exn) : M A := fun c => (Raise e, c).

Definition bind {A B} (m : M A) (k : A -> M B) : M B :=
  fun c =>
    match m c with
    | (Ok a, c') => k a c'
    | (Raise e, c') => (Raise e, c')
    end.

(** A collaborator without effects of its own that may still raise. *)
Definition lift {A} (o : Outcome A) : M A := fun c => (o, c).

(** An effectful call: the event is logged when the call is issued, and
    the collaborator answers knowing everything issued before it. *)
Definition call {A} (e : Event) (answer : Trace -> Outcome A) : M A :=
  fun c => (answer (trace c), log e c).

(** A collaborator that reads the process state but issues nothing this
    development records. *)
Definition call_silent {A} (answer : Trace -> Outcome A) : M A :=
  fun c => (answer (trace c), c).

Definition set_self_tdf (t : TDataFrame) : M unit :=
  fun c => (Ok tt, store_tdf t c).

Declare Scope py_scope.
Delimit Scope py_scope with py.
Notation "x <- m ;; k" := (bind m (fun x => k))
  (at level 61, m at next level, right associativity) : py_scope.
Notation "m ;; k" := (bind m (fun _ => k))
  (at level 61, right associativity) : py_scope.
Open Scope py_scope.

(** ** Collaborators *)

(** [str.strip()].  A Python [str] is modelled by the string of its
    UTF-8 bytes, and whitespace is what Python's [str.isspace] accepts:
    U+0009 to U+000D, U+001C to U+001F and U+0020 (one byte each),
    U+0085 and U+00A0 (two bytes), U+1680, U+2000 to U+200A, U+2028,
    U+2029, U+202F, U+205F and U+3000 (three bytes). *)
Definition space1 (a : ascii) : bool :=
  let n := nat_of_ascii a in
  orb (andb (Nat.leb 9 n) (Nat.leb n 13))
      (orb (andb (Nat.leb 28 n) (Nat.leb n 31)) (Nat.eqb n 32)).

Definition space2 (a b : ascii) : bool :=
  andb (Nat.eqb (nat_of_ascii a) 194)
       (orb (Nat.eqb (nat_of_ascii b) 133) (Nat.eqb (nat_of_ascii b) 160)).

Definition space3 (a b c : ascii) : bool :=
  let x := nat_of_ascii a in
  let y := nat_of_ascii b in
  let z := nat_of_ascii c in
  orb (andb (Nat.eqb x 225) (andb (Nat.eqb y 154) (Nat.eqb z 128)))
      (orb (andb (Nat.eqb x 226)
                 (andb (Nat.eqb y 128)
                       (orb (andb (Nat.leb 128 z) (Nat.leb z 138))
                            (orb (Nat.eqb z 168)
                                 (orb (Nat.eqb z 169) (Nat.eqb z 175))))))
           (orb (andb (Nat.eqb x 226)
                      (andb (Nat.eqb y 129) (Nat.eqb z 159)))
                (andb (Nat.eqb x 227)
                      (andb (Nat.eqb y 128) (Nat.eqb z 128))))).

(** Drops the whitespace characters at the front; [t2] and [t3]
    recognise the two and three byte ones in the order the bytes come. *)
Fixpoint drop_spaces (t2 : ascii -> ascii -> bool)
         (t3 : ascii -> ascii -> ascii -> bool) (l : list ascii)
  : list ascii :=
  match l with
  | a :: l1 =>
      if space1 a then drop_spaces t2 t3 l1
      else
        match l1 with
        | b :: l2 =>
            if t2 a b then drop_spaces t2 t3 l2
            else
              match l2 with
              | c :: l3 => if t3 a b c then drop_spaces t2 t3 l3 else l
              | [] => l
              end
        | [] => l
        end
  | [] => []
  end.

(** The same tests on bytes met back to front. *)
Definition space2_back (b a : ascii) : bool := space2 a b.
Definition space3_back (c b a : ascii) : bool := space3 a b c.

Definition lstrip (s : string) : string :=
  string_of_list_ascii
    (drop_spaces space2 space3 (list_ascii_of_string s)).

Definition rstrip (s : string) : string :=
  string_of_list_ascii
    (rev (drop_spaces space2_back space3_back
                      (rev (list_ascii_of_string s)))).

Definition strip (s : string) : string := rstrip (lstrip s).

(** The reader [pa.ipc.open_stream] returns. *)
Record RecordBatchStreamReader : Type := mkReader {
  source : bytes
}.

Module Heavy.

(** The Thrift client behind [self._client].  Every method takes the
    log of what was issued before it, so the server may answer
    differently to a repeated request. *)
Record Client : Type := mkClient {
  get_tables : Trace -> Outcome (list string);
  create_table : string -> list TColumnType -> Trace -> Outcome unit;
  get_table_details : string -> Trace -> Outcome (list TColumnType);
  load_table :
    string -> list TStringRow -> list string -> Trace -> Outcome unit;
  load_table_binary_columnar :
    string -> list TColumn -> list string -> Trace -> Outcome unit;
  load_table_binary_arrow :
    string -> bytes -> list string -> Trace -> Outcome unit;
  sql_execute_df :
    string -> Z -> Z -> Z -> TArrowTransport -> Trace -> Outcome TDataFrame;
  sql_execute_gdf : string -> Z -> Z -> Trace -> Outcome TDataFrame;
  deallocate_df : TDataFrame -> TDeviceType -> Z -> Trace -> Outcome unit
}.

End Heavy.

(** What the module imports besides the client. *)
Record World : Type := mkWorld {
  client : Heavy.Client;
  (* heavydb.Connection *)
  base_register_runtime_udfs : Trace -> Outcome unit;
  (* heavydb._parsers *)
  _bind_parameters :
    string -> list (string * PyVal) -> Outcome string;
  _extract_column_details : list TColumnType -> Outcome (list ColumnDetails);
  (* ._loaders, ._pandas_loaders *)
  _build_input_rows : Data -> Outcome (list TStringRow);
  build_row_desc : Data -> bool -> Outcome (list TColumnType);
  _serialize_arrow_payload :
    Data -> list ColumnDetails -> bool -> Outcome bytes;
  build_input_columnar :
    Frame -> bool -> Z -> list ColumnDetails -> list string ->
    Outcome (list (list TColumn));
  (* pyarrow *)
  open_stream : bytes -> Outcome RecordBatchStreamReader;
  read_all : RecordBatchStreamReader -> Outcome ArrowTable;
  to_pandas : ArrowTable -> Outcome FrameData;
  (* pandas: the attribute assignments and the call of lines 402 to 408,
     [df.set_tdf = ...], [df.get_tdf = ...], [df.set_tdf(tdf)].  A
     DataFrame routes attribute access to a column of that name, so on a
     result with a column called [set_tdf] the call finds the column
     and raises. *)
  bind_tdf_methods : FrameData -> TDataFrame -> Outcome unit;
  (* .ipc *)
  load_buffer : bytes -> Z -> Trace -> Outcome (bytes * Z);
  shmdt : Z -> Trace -> Outcome Z;
  (* cudf, ._utils *)
  cudf_importable : bool;
  _parse_tdf_gpu : TDataFrame -> Trace -> Outcome Frame
}.

(** ** The methods of [Connection] *)

Section Connection.

Variable w : World.

(** Modelled from the spec: [get_tdf] of [heavyai._mutators] resolves
    the tag; on a frame without one the attribute lookup fails. *)
Definition get_tdf (df : Frame) : M TDataFrame :=
  match descriptor_tag df with
  | Some tdf => ret tdf
  | None => raise AttributeError_get_tdf
  end.

(** Modelled from the spec: [set_tdf] of [heavyai._mutators], bound to
    the frame together with [get_tdf]. *)
Definition set_tdf (df : Frame) (tdf : TDataFrame) : Frame :=
  mkFrame (frame df) (Some tdf).

Definition register_runtime_udfs : M unit :=
  call RegisterRuntimeUdfs (base_register_runtime_udfs w).

Definition create_table (table_name : string) (data : Data)
           (preserve_index : bool) : M unit :=
  row_desc <- lift (build_row_desc w data preserve_index) ;;
  call (RpcCreateTable table_name row_desc)
       (Heavy.create_table (client w) table_name row_desc).

Definition get_tables : M (list string) :=
  call RpcGetTables (Heavy.get_tables (client w)).

Definition get_table_details (table_name : string)
  : M (list ColumnDetails) :=
  details <- call (RpcGetTableDetails table_name)
                  (Heavy.get_table_details (client w) table_name) ;;
  lift (_extract_column_details w details).

Definition load_table_rowwise (table_name : string) (data : Data)
           (column_names : list string) : M unit :=
  input_data <- lift (_build_input_rows w data) ;;
  call (RpcLoadTable table_name input_data column_names)
       (Heavy.load_table (client w) table_name input_data column_names).

(** The [for cols in input_cols] loop of [load_table_columnar]. *)
Fixpoint send_batches (table_name : string)
         (input_cols : list (list TColumn)) (column_names : list string)
  : M unit :=
  match input_cols with
  | [] => ret tt
  | cols :: rest =>
      call (RpcLoadTableBinaryColumnar table_name cols column_names)
           (Heavy.load_table_binary_columnar (client w) table_name cols
                                             column_names) ;;
      send_batches table_name rest column_names
  end.

Definition load_table_columnar (table_name : string) (data : Data)
           (preserve_index : bool) (chunk_size_bytes : Z)
           (col_names_from_schema : bool) (column_names : list string)
  : M unit :=
  match data with
  | PdDataFrame df =>
      table_details <- get_table_details table_name ;;
      if negb (Nat.eqb (List.length table_details)
                       (List.length (columns (frame df))))
      then raise (ValueError_column_count
                    (List.length (columns (frame df)))
                    (List.length table_details))
      else
        let col_names :=
          if col_names_from_schema
          then map name table_details
          else columns (frame df) in
        let col_types := table_details in
        input_cols <- lift (build_input_columnar w df preserve_index
                              chunk_size_bytes col_types col_names) ;;
        send_batches table_name input_cols column_names
  | _ => raise TypeError_unknown_type
  end.

Definition load_table_arrow (table_name : string) (data : Data)
           (preserve_index : bool) (load_column_names : list string)
  : M unit :=
  metadata <- get_table_details table_name ;;
  payload <- lift (_serialize_arrow_payload w data metadata
                                            preserve_index) ;;
  call (RpcLoadTableBinaryArrow table_name payload load_column_names)
       (Heavy.load_table_binary_arrow (client w) table_name payload
                                      load_column_names).

(** [table_name not in set(...)]. *)
Definition not_in_tables (table_name : string) (tables : list string)
  : bool :=
  negb (existsb (String.eqb table_name) tables).

(** The tail of [load_table] after the dispatch on [method]. *)
Definition load_table_rows_tail (table_name : string) (data : Data)
           (preserve_index : bool) (column_names : list string) : M unit :=
  let data :=
    match data with
    | PdDataFrame df => TupleSeq (itertuples df preserve_index)
    | _ => data
    end in
  input_data <- lift (_build_input_rows w data) ;;
  call (RpcLoadTable table_name input_data column_names)
       (Heavy.load_table (client w) table_name input_data column_names).

Definition load_table (table_name : string) (data : Data)
           (method : PyVal) (preserve_index : bool) (create : PyVal)
           (column_names : list string) : M unit :=
  if negb (py_in create [PyStr "infer"; PyBool true; PyBool false])
  then raise (ValueError_create create)
  else
    create <- (if py_eq create (PyStr "infer")
               then tables <- get_tables ;;
                    ret (PyBool (not_in_tables table_name tables))
               else ret create) ;;
    (if py_truthy create
     then create_table table_name data false
     else ret tt) ;;
    if py_eq method (PyStr "infer") then
      if orb (is_pd_DataFrame data)
             (orb (is_pa_Table data) (is_pa_RecordBatch data))
      then load_table_arrow table_name data false []
      else if is_pd_DataFrame data
      then load_table_columnar table_name data false 0 false []
      else load_table_rows_tail table_name data preserve_index
                                column_names
    else if py_eq method (PyStr "arrow") then
      load_table_arrow table_name data false []
    else if py_eq method (PyStr "columnar") then
      load_table_columnar table_name data false 0 false []
    else if negb (py_eq method (PyStr "rows")) then
      raise (TypeError_method method)
    else load_table_rows_tail table_name data preserve_index column_names.

(** A keyword argument the caller may leave out. *)
Definition or_default {A} (default : A) (given : option A) : A :=
  match given with
  | Some a => a
  | None => default
  end.

Definition deallocate_ipc_gpu (df : Frame) (device_id : option Z)
  : M unit :=
  let device_id := or_default 0 device_id in
  tdf <- get_tdf df ;;
  call (RpcDeallocateDf tdf GPU device_id)
       (Heavy.deallocate_df (client w) tdf GPU device_id).

Definition deallocate_ipc (df : Frame) (device_id : option Z) : M unit :=
  let device_id := or_default 0 device_id in
  tdf <- get_tdf df ;;
  call (RpcDeallocateDf tdf CPU device_id)
       (Heavy.deallocate_df (client w) tdf CPU device_id).

(** [if parameters is not None: operation = str(_bind_parameters(...))]. *)
Definition bind_operation (operation : string)
           (parameters : option (list (string * PyVal))) : M string :=
  match parameters with
  | Some ps => lift (_bind_parameters w operation ps)
  | None => ret operation
  end.

Definition select_ipc_gpu (operation : string)
           (parameters : option (list (string * PyVal)))
           (device_id first_n : Z) (release_memory : bool) : M Frame :=
  if negb (cudf_importable w) then raise ImportError_cudf
  else
    register_runtime_udfs ;;
    operation <- bind_operation operation parameters ;;
    tdf <- call (RpcSqlExecuteGdf (strip operation) device_id first_n)
                (Heavy.sql_execute_gdf (client w) (strip operation)
                                       device_id first_n) ;;
    set_self_tdf tdf ;;
    df <- call_silent (_parse_tdf_gpu w tdf) ;;
    (if release_memory then deallocate_ipc_gpu df None else ret tt) ;;
    ret df.

Definition select_ipc (operation : string)
           (parameters : option (list (string * PyVal)))
           (first_n : Z) (release_memory : bool)
           (transport_method : TArrowTransport) : M Frame :=
  register_runtime_udfs ;;
  operation <- bind_operation operation parameters ;;
  tdf <- call (RpcSqlExecuteDf (strip operation) 0 0 first_n
                               transport_method)
              (Heavy.sql_execute_df (client w) (strip operation) 0 0
                                    first_n transport_method) ;;
  set_self_tdf tdf ;;
  if transport_eqb transport_method WIRE then
    reader <- lift (open_stream w (df_buffer tdf)) ;;
    tbl <- lift (read_all w reader) ;;
    df <- lift (to_pandas w tbl) ;;
    ret (plain df)
  else if transport_eqb transport_method SHARED_MEMORY then
    df_buf <- call (ShmAttach (df_handle tdf) (df_size tdf))
                   (load_buffer w (df_handle tdf) (df_size tdf)) ;;
    reader <- lift (open_stream w (fst df_buf)) ;;
    tbl <- lift (read_all w reader) ;;
    df <- lift (to_pandas w tbl) ;;
    lift (bind_tdf_methods w df tdf) ;;
    let df := set_tdf (plain df) tdf in
    (* [ctypes.cast] of the integer address to [c_void_p] cannot fail *)
    call (ShmDetach (snd df_buf)) (shmdt w (snd df_buf)) ;;
    (if release_memory then deallocate_ipc df None else ret tt) ;;
    ret df
  else raise RuntimeError_transport.

End Connection.

(** The values of the keyword arguments a caller leaves out. *)
Definition default_first_n : Z := -1.
Definition default_device_id : Z := 0.
Definition default_release_memory : bool := true.
Definition default_transport_method : TArrowTransport := WIRE.

(** ** Observations on a run *)

(** The events a computation adds to the log when started on [c]. *)
Definition issued_by {A} (m : M A) (c : Conn) : Trace :=
  skipn (List.length (trace c)) (trace (snd (m c))).

(** Every event a computation adds satisfies [p], whatever the state it
    starts from. *)
Definition emits {A} (p : Event -> bool) (m : M A) : Prop :=
  forall c, exists new,
    trace (snd (m c)) = trace c ++ new /\ forallb p new = true.

Definition no_load_rpc (e : Event) : bool := negb (is_load_rpc e).
Definition no_columnar_load (e : Event) : bool := negb (is_columnar_load e).
Definition no_deallocate (e : Event) : bool := negb (is_deallocate e).

(** The three lines [open_stream], [read_all], [to_pandas] that decode a
    columnar stream, as one outcome. *)
Definition decode (w : World) (buf : bytes) : Outcome FrameData :=
  match open_stream w buf with
  | Ok reader =>
      match read_all w reader with
      | Ok tbl => to_pandas w tbl
      | Raise e => Raise e
      end
  | Raise e => Raise e
  end.

(** The data for which [method='infer'] takes its first branch. *)
Definition is_columnar_structure (d : Data) : bool :=
  orb (is_pd_DataFrame d) (orb (is_pa_Table d) (is_pa_RecordBatch d)).

Definition valid_create : list PyVal :=
  [PyStr "infer"; PyBool true; PyBool false].
Definition valid_method : list PyVal :=
  [PyStr "infer"; PyStr "arrow"; PyStr "columnar"; PyStr "rows"].

(** Lines 99 to 106 of [load_table] on their own: the table creation
    policy that runs between the check of [create] and the dispatch on
    [method]. *)
Definition create_step (w : World) (table_name : string) (data : Data)
           (create : PyVal) : M unit :=
  create <- (if py_eq create (PyStr "infer")
             then tables <- get_tables w ;;
                  ret (PyBool (not_in_tables table_name tables))
             else ret create) ;;
  if py_truthy create then create_table w table_name data false else ret tt.

(** ** Concrete worlds *)

Module Sample.

Definition tdf0 : TDataFrame :=
  mkTDataFrame [x41; x52] [x07] 2.

Definition fd0 : FrameData :=
  mkFrameData [PyInt 0] ["a"] [[PyInt 1]].

Definition tbl0 : ArrowTable := mkArrowTable ["a"] [[PyInt 1]].

(** A server that accepts every request and a local library stack in
    which everything works. *)
Definition obliging_client : Heavy.Client :=
  Heavy.mkClient
    (fun _ => Ok ["flights"])
    (fun _ _ _ => Ok tt)
    (fun _ _ => Ok [mkTColumnType "a" "INT"])
    (fun _ _ _ _ => Ok tt)
    (fun _ _ _ _ => Ok tt)
    (fun _ _ _ _ => Ok tt)
    (fun _ _ _ _ _ _ => Ok tdf0)
    (fun _ _ _ _ => Ok tdf0)
    (fun _ _ _ _ => Ok tt).

Definition details_of (c : TColumnType) : ColumnDetails :=
  mkColumnDetails (col_name c) (col_type c) true 0 0 0 "NONE".

(** [build_row_desc] accepts pandas frames only. *)
Definition row_desc_of (d : Data) (preserve_index : bool)
  : Outcome (list TColumnType) :=
  match d with
  | PdDataFrame _ => Ok [mkTColumnType "a" "INT"]
  | _ => Raise (Foreign "TypeError: Create table is not supported")
  end.

(** Attribute access on a pandas frame: a column called [set_tdf] takes
    the place of the method, and calling it raises. *)
Definition pandas_attributes (fd : FrameData) (tdf : TDataFrame)
  : Outcome unit :=
  if existsb (String.eqb "set_tdf") (columns fd)
  then Raise (Foreign "TypeError: 'Series' object is not callable")
  else Ok tt.

Definition healthy : World :=
  mkWorld obliging_client
    (fun _ => Ok tt)
    (fun op _ => Ok op)
    (fun rd => Ok (map details_of rd))
    (fun _ => Ok [[mkTStringValue "1" false]])
    row_desc_of
    (fun _ _ _ => Ok [x01])
    (fun _ _ _ _ _ => Ok [[mkTColumn [PyInt 1] [false]]])
    (fun b => Ok (mkReader b))
    (fun _ => Ok tbl0)
    (fun _ => Ok fd0)
    pandas_attributes
    (fun _ _ _ => Ok ([x41; x52], 4096))
    (fun _ _ => Ok 0)
    true
    (fun tdf _ => Ok (mkFrame fd0 (Some tdf))).


Definition fresh : Conn := mkConn "session" None [].

Definition caller_frame : Frame := plain fd0.

Definition fetched_frame : Frame := mkFrame fd0 (Some tdf0).

Definition two_columns : Frame :=
  plain (mkFrameData [PyInt 0] ["a"; "b"] [[PyInt 1; PyInt 2]]).

End Sample.

(** ** Dashboards and rendering *)

Record TDashboard : Type := mkTDashboard {
  dashboard_name : string;
  dashboard_state : string;
  image_hash : string;
  dashboard_metadata : string;
  dashboard_id : Z
}.

(** [TRenderResult]; [RenderedVega] reads its [image]. *)
Record TRenderResult : Type := mkTRenderResult {
  image : bytes;
  nonce : string
}.

(** The [remap] dictionary: old table name to a dictionary with the key
    ['name']. *)
Definition Remap := list (string * list (string * string)).

(** The requests of the dashboard and rendering methods. *)
Inductive BoardEvent : Type :=
| RpcGetDashboard (id : Z)
| RpcGetDashboards
| RpcCreateDashboard (name state hash metadata : string)
| RpcRenderVega (vega_json : string) (compression_level : Z).

Definition is_create_dashboard (e : BoardEvent) : bool :=
  match e with RpcCreateDashboard _ _ _ _ => true | _ => false end.

(** ** Base64, as [base64.b64encode] *)

Definition b64_alphabet : string :=
  "ABCDEFGHIJKLMNOPQRSTUVWXYZabcdefghijklmnopqrstuvwxyz0123456789+/".

Definition b64_pad : ascii := "="%char.

Definition b64_char (n : nat) : ascii :=
  match String.get n b64_alphabet with
  | Some a => a
  | None => b64_pad
  end.

Fixpoint b64encode (s : list byte) : string :=
  match s with
  | [] => EmptyString
  | [a] =>
      let x := Byte.to_nat a in
      String (b64_char (Nat.div x 4))
        (String (b64_char (Nat.modulo x 4 * 16))
           (String b64_pad (String b64_pad EmptyString)))
  | [a; b] =>
      let x := Byte.to_nat a in
      let y := Byte.to_nat b in
      String (b64_char (Nat.div x 4))
        (String (b64_char (Nat.modulo x 4 * 16 + Nat.div y 16))
           (String (b64_char (Nat.modulo y 16 * 4))
              (String b64_pad EmptyString)))
  | a :: b :: c :: rest =>
      let x := Byte.to_nat a in
      let y := Byte.to_nat b in
      let z := Byte.to_nat c in
      String (b64_char (Nat.div x 4))
        (String (b64_char (Nat.modulo x 4 * 16 + Nat.div y 16))
           (String (b64_char (Nat.modulo y 16 * 4 + Nat.div z 64))
              (String (b64_char (Nat.modulo z 64)) (b64encode rest))))
  end.

(** The inverse reading of the alphabet, and the decoder the encoded text
    is meant for (RFC 4648 with padding). *)
Fixpoint index_of (a : ascii) (s : string) : option nat :=
  match s with
  | EmptyString => None
  | String b s' =>
      if Ascii.eqb a b then Some O else option_map S (index_of a s')
  end.

Definition b64_index (a : ascii) : option nat := index_of a b64_alphabet.

Definition is_empty (s : string) : bool :=
  match s with EmptyString => true | _ => false end.

Definition bytes_of_nats (l : list nat) : option (list byte) :=
  fold_right
    (fun n acc =>
       match Byte.of_nat n, acc with
       | Some b, Some bs => Some (b :: bs)
       | _, _ => None
       end)
    (Some []) l.

Fixpoint b64decode (s : string) : option (list byte) :=
  match s with
  | EmptyString => Some []
  | String c0 (String c1 (String c2 (String c3 rest))) =>
      match b64_index c0, b64_index c1 with
      | Some s0, Some s1 =>
          if Ascii.eqb c2 b64_pad then
            if andb (Ascii.eqb c3 b64_pad) (is_empty rest)
            then bytes_of_nats [s0 * 4 + Nat.div s1 16]%nat
            else None
          else
            match b64_index c2 with
            | Some s2 =>
                if Ascii.eqb c3 b64_pad then
                  if is_empty rest
                  then bytes_of_nats
                         [s0 * 4 + Nat.div s1 16;
                          Nat.modulo s1 16 * 16 + Nat.div s2 4]%nat
                  else None
                else
                  match b64_index c3, b64decode rest with
                  | Some s3, Some tail =>
                      option_map (fun head => head ++ tail)
                        (bytes_of_nats
                           [s0 * 4 + Nat.div s1 16;
                            Nat.modulo s1 16 * 16 + Nat.div s2 4;
                            Nat.modulo s2 4 * 64 + s3]%nat)
                  | _, _ => None
                  end
            | None => None
            end
      | _, _ => None
      end
  | _ => None
  end.

(** ** [RenderedVega] *)

Record RenderedVega : Type := mkRenderedVega {
  _render_result : TRenderResult;
  image_data : string
}.

(** [RenderedVega.__init__]; the encoded bytes are ASCII, so [decode()]
    reads them as they are. *)
Definition RenderedVega_init (render_result : TRenderResult) : RenderedVega :=
  mkRenderedVega render_result (b64encode (image render_result)).

Definition dquote : string := String (ascii_of_nat 34) EmptyString.

(** [RenderedVega._repr_mimebundle_]: the dictionary, in insertion
    order.  [include] and [exclude] are not read. *)
Definition _repr_mimebundle_ (self : RenderedVega) : list (string * string) :=
  [("image/png", image_data self);
   ("text/html",
    ("<img src=" ++ dquote ++ "data:image/png;base64,")%string
    ++ image_data self
    ++ (dquote ++ " alt=" ++ dquote ++ "HeavyAI Vega" ++ dquote ++ ">"))%string].

(** ** The dashboard methods of [Connection] *)

Module Board.

(** The part of the Thrift client these methods call, and
    [._transforms._change_dashboard_sources]. *)
Record Client : Type := mkClient {
  get_dashboard : Z -> list BoardEvent -> Outcome TDashboard;
  get_dashboards : list BoardEvent -> Outcome (list TDashboard);
  create_dashboard :
    string -> string -> string -> string -> list BoardEvent -> Outcome Z;
  render_vega : string -> Z -> list BoardEvent -> Outcome TRenderResult;
  _change_dashboard_sources : TDashboard -> Remap -> Outcome TDashboard
}.

(** State and exceptions over the log of requests. *)
Definition M (A : Type) : Type :=
  list BoardEvent -> Outcome A * list BoardEvent.

Definition ret {A} (a : A) : M A := fun h => (Ok a, h).

Definition bind {A B} (m : M A) (k : A -> M B) : M B :=
  fun h =>
    match m h with
    | (Ok a, h') => k a h'
    | (Raise e, h') => (Raise e, h')
    end.

Definition lift {A} (o : Outcome A) : M A := fun h => (o, h).

Definition call {A} (e : BoardEvent) (answer : list BoardEvent -> Outcome A)
  : M A :=
  fun h => (answer h, h ++ [e]).

End Board.

Section Dashboards.

Variable k : Board.Client.

Definition get_dashboard (id : Z) : Board.M TDashboard :=
  Board.call (RpcGetDashboard id) (Board.get_dashboard k id).

Definition get_dashboards : Board.M (list TDashboard) :=
  Board.call RpcGetDashboards (Board.get_dashboards k).

Definition create_dashboard (dashboard : TDashboard) : Board.M Z :=
  Board.call
    (RpcCreateDashboard (dashboard_name dashboard)
       (dashboard_state dashboard) (image_hash dashboard)
       (dashboard_metadata dashboard))
    (Board.create_dashboard k (dashboard_name dashboard)
       (dashboard_state dashboard) (image_hash dashboard)
       (dashboard_metadata dashboard)).

Definition change_dashboard_sources (dashboard : TDashboard)
           (remap : Remap) : Board.M TDashboard :=
  Board.lift (Board._change_dashboard_sources k dashboard remap).

(** [d.dashboard_name = newdashname]. *)
Definition with_name (d : TDashboard) (newdashname : string) : TDashboard :=
  mkTDashboard newdashname (dashboard_state d) (image_hash d)
               (dashboard_metadata d) (dashboard_id d).

(** [new_name or default]: [None] and the empty string are false. *)
Definition str_or (new_name : option string) (default : string) : string :=
  match new_name with
  | Some EmptyString => default
  | Some s => s
  | None => default
  end.

(** [source_remap or {}]. *)
Definition remap_or_empty (source_remap : option Remap) : Remap :=
  match source_remap with
  | Some r => r
  | None => []
  end.

Definition remap_truthy (r : Remap) : bool :=
  match r with
  | [] => false
  | _ :: _ => true
  end.

Definition duplicate_dashboard (id : Z) (new_name : option string)
           (source_remap : option Remap) : Board.M Z :=
  let source_remap := remap_or_empty source_remap in
  Board.bind (get_dashboard id) (fun d =>
  let newdashname := str_or new_name (dashboard_name d ++ " (Copy)")%string in
  Board.bind (if remap_truthy source_remap
              then change_dashboard_sources d source_remap
              else Board.ret d) (fun d =>
  let d := with_name d newdashname in
  create_dashboard d)).

Definition render_vega (vega : string) (compression_level : Z)
  : Board.M RenderedVega :=
  Board.bind (Board.call (RpcRenderVega vega compression_level)
                         (Board.render_vega k vega compression_level))
             (fun result => Board.ret (RenderedVega_init result)).

End Dashboards.

Definition default_compression_level : Z := 1.

(** ** Vocabulary of the further properties *)

(** A whitespace character at the front of a list of bytes. *)
Definition front_space (t2 : ascii -> ascii -> bool)
           (t3 : ascii -> ascii -> ascii -> bool) (l : list ascii) : bool :=
  match l with
  | a :: l1 =>
      orb (space1 a)
          match l1 with
          | b :: l2 =>
              orb (t2 a b)
                  match l2 with
                  | c :: _ => t3 a b c
                  | [] => false
                  end
          | [] => false
          end
  | [] => false
  end.

(** The text starts, or ends, with a whitespace character. *)
Definition leading_space (s : string) : bool :=
  front_space space2 space3 (list_ascii_of_string s).

Definition trailing_space (s : string) : bool :=
  front_space space2_back space3_back (rev (list_ascii_of_string s)).

(** A character of the Base64 alphabet, or the padding character. *)
Definition b64_symbol (c : ascii) : bool :=
  match b64_index c with
  | Some _ => true
  | None => Ascii.eqb c b64_pad
  end.

Definition is_create_table (e : Event) : bool :=
  match e with RpcCreateTable _ _ => true | _ => false end.

(** What the row-wise path encodes: a DataFrame goes in as the sequence
    of its tuples. *)
Definition row_source (data : Data) (preserve_index : bool) : Data :=
  match data with
  | PdDataFrame df => TupleSeq (itertuples df preserve_index)
  | _ => data
  end.

(** The name [duplicate_dashboard] gives the copy of a dashboard called
    [old]. *)
Definition copy_name (new_name : option string) (old : string) : string :=
  match new_name with
  | Some (String a s) => String a s
  | _ => (old ++ " (Copy)")%string
  end.

(** ** More concrete worlds *)

Module Scenario.

(** A host without the [cudf] package. *)
Definition no_cudf : World :=
  mkWorld Sample.obliging_client
    (fun _ => Ok tt)
    (fun op _ => Ok op)
    (fun rd => Ok (map Sample.details_of rd))
    (fun _ => Ok [[mkTStringValue "1" false]])
    Sample.row_desc_of
    (fun _ _ _ => Ok [x01])
    (fun _ _ _ _ _ => Ok [[mkTColumn [PyInt 1] [false]]])
    (fun b => Ok (mkReader b))
    (fun _ => Ok Sample.tbl0)
    (fun _ => Ok Sample.fd0)
    Sample.pandas_attributes
    (fun _ _ _ => Ok ([x41; x52], 4096))
    (fun _ _ => Ok 0)
    false
    (fun tdf _ => Ok (mkFrame Sample.fd0 (Some tdf))).

(** A query whose result has a column called [set_tdf]. *)
Definition shadowed_frame : FrameData :=
  mkFrameData [PyInt 0] ["set_tdf"] [[PyInt 1]].

Definition shadowing_column : World :=
  mkWorld Sample.obliging_client
    (fun _ => Ok tt)
    (fun op _ => Ok op)
    (fun rd => Ok (map Sample.details_of rd))
    (fun _ => Ok [[mkTStringValue "1" false]])
    Sample.row_desc_of
    (fun _ _ _ => Ok [x01])
    (fun _ _ _ _ _ => Ok [[mkTColumn [PyInt 1] [false]]])
    (fun b => Ok (mkReader b))
    (fun _ => Ok (mkArrowTable ["set_tdf"] [[PyInt 1]]))
    (fun _ => Ok shadowed_frame)
    Sample.pandas_attributes
    (fun _ _ _ => Ok ([x41; x52], 4096))
    (fun _ _ => Ok 0)
    true
    (fun tdf _ => Ok (mkFrame Sample.fd0 (Some tdf))).

(** A load in three batches against a server that refuses the second
    columnar request it gets. *)
Definition batch1 : list TColumn := [mkTColumn [PyInt 1] [false]].
Definition batch2 : list TColumn := [mkTColumn [PyInt 2] [false]].
Definition batch3 : list TColumn := [mkTColumn [PyInt 3] [false]].

Definition refusing_client : Heavy.Client :=
  Heavy.mkClient
    (fun _ => Ok ["flights"])
    (fun _ _ _ => Ok tt)
    (fun _ _ => Ok [mkTColumnType "a" "INT"])
    (fun _ _ _ _ => Ok tt)
    (fun _ _ _ h =>
       if Nat.eqb (count is_columnar_load h) 1
       then Raise (Foreign "TDBException")
       else Ok tt)
    (fun _ _ _ _ => Ok tt)
    (fun _ _ _ _ _ _ => Ok Sample.tdf0)
    (fun _ _ _ _ => Ok Sample.tdf0)
    (fun _ _ _ _ => Ok tt).

Definition refused_batch : World :=
  mkWorld refusing_client
    (fun _ => Ok tt)
    (fun op _ => Ok op)
    (fun rd => Ok (map Sample.details_of rd))
    (fun _ => Ok [[mkTStringValue "1" false]])
    Sample.row_desc_of
    (fun _ _ _ => Ok [x01])
    (fun _ _ _ _ _ => Ok [batch1; batch2; batch3])
    (fun b => Ok (mkReader b))
    (fun _ => Ok Sample.tbl0)
    (fun _ => Ok Sample.fd0)
    Sample.pandas_attributes
    (fun _ _ _ => Ok ([x41; x52], 4096))
    (fun _ _ => Ok 0)
    true
    (fun tdf _ => Ok (mkFrame Sample.fd0 (Some tdf))).

Definition flights : TDashboard :=
  mkTDashboard "Flights" "state-of-flights" "hash" "meta" 7.

(** A server with one dashboard; remapping the sources rewrites the state
    and, as it happens, the name. *)
Definition board : Board.Client :=
  Board.mkClient
    (fun _ _ => Ok flights)
    (fun _ => Ok [flights])
    (fun _ _ _ _ _ => Ok 8)
    (fun _ _ _ => Ok (mkTRenderResult [x4d; x61; x6e] "n"))
    (fun d _ => Ok (mkTDashboard "remapped" "state-of-trips" (image_hash d)
                                 (dashboard_metadata d) (dashboard_id d))).

Definition remap0 : Remap := [("flights", [("name", "trips")])].

End Scenario.

(** * Properties *)

(** ** Reasoning about logs *)

Lemma skipn_length_app (A : Type) (l l' : list A) :
  skipn (List.length l) (l ++ l') = l'.
Proof. induction l as [|a l IH]; simpl; auto. Qed.

Lemma issued_by_extension (A : Type) (m : M A) (c : Conn) (new : Trace) :
  trace (snd (m c)) = trace c ++ new -> issued_by m c = new.
Proof.
  intros E. unfold issued_by. rewrite E. apply skipn_length_app.
Qed.

Lemma trace_log (e : Event) (c : Conn) : trace (log e c) = trace c ++ [e].
Proof. reflexivity. Qed.

Lemma forallb_negb_count (p : Event -> bool) (t : Trace) :
  forallb (fun e => negb (p e)) t = true -> count p t = 0%nat.
Proof.
  unfold count. induction t as [|e t IH]; simpl; intros H; auto.
  apply andb_true_iff in H. destruct H as [He Ht].
  destruct (p e); simpl in *; try discriminate. auto.
Qed.

Section Emits.

Variable p : Event -> bool.

Lemma emits_ret (A : Type) (a : A) : emits p (ret a).
Proof. intros c. exists []. simpl. rewrite app_nil_r. auto. Qed.

Lemma emits_raise (A : Type) (e : Exn) : emits p (@raise A e).
Proof. intros c. exists []. simpl. rewrite app_nil_r. auto. Qed.

Lemma emits_lift (A : Type) (o : Outcome A) : emits p (lift o).
Proof. intros c. exists []. simpl. rewrite app_nil_r. auto. Qed.

Lemma emits_call_silent (A : Type) (f : Trace -> Outcome A) :
  emits p (call_silent f).
Proof. intros c. exists []. simpl. rewrite app_nil_r. auto. Qed.

Lemma emits_set_self_tdf (t : TDataFrame) : emits p (set_self_tdf t).
Proof. intros c. exists []. simpl. rewrite app_nil_r. auto. Qed.

Lemma emits_call (A : Type) (e : Event) (f : Trace -> Outcome A) :
  p e = true -> emits p (call e f).
Proof. intros He c. exists [e]. simpl. rewrite He. auto. Qed.

Lemma emits_bind (A B : Type) (m : M A) (k : A -> M B) :
  emits p m -> (forall a, emits p (k a)) -> emits p (bind m k).
Proof.
  intros Hm Hk c. unfold bind.
  destruct (Hm c) as [n1 [E1 F1]].
  destruct (m c) as [[a|e] c1] eqn:Em; simpl in E1.
  - destruct (Hk a c1) as [n2 [E2 F2]].
    exists (n1 ++ n2). rewrite E2, E1, app_assoc. split; auto.
    rewrite forallb_app, F1, F2. reflexivity.
  - exists n1. simpl. auto.
Qed.

Lemma emits_get_tdf (df : Frame) : emits p (get_tdf df).
Proof.
  unfold get_tdf. destruct (descriptor_tag df);
    [apply emits_ret | apply emits_raise].
Qed.

End Emits.

Lemma emits_issued (A : Type) (p : Event -> bool) (m : M A) (c : Conn) :
  emits p m ->
  trace (snd (m c)) = trace c ++ issued_by m c /\
  forallb p (issued_by m c) = true.
Proof.
  intros Hm. destruct (Hm c) as [new [E F]].
  rewrite (@issued_by_extension _ m c new E). auto.
Qed.

(** Breaks a goal [emits p m] down along the structure of [m]. *)
Ltac emits_step :=
  first
    [ apply emits_ret
    | apply emits_raise
    | apply emits_lift
    | apply emits_call_silent
    | apply emits_set_self_tdf
    | apply emits_get_tdf
    | apply emits_call; reflexivity
    | apply emits_bind; [ | intro ]
    | match goal with
      | |- emits _ (if ?b then _ else _) => destruct b
      | |- emits _ (match ?o with Some _ => _ | None => _ end) => destruct o
      end ].

Ltac emits_auto := repeat emits_step.

(** ** Release *)

Lemma deallocate_ipc_tagged w df tdf device_id c :
  descriptor_tag df = Some tdf ->
  deallocate_ipc w df device_id c =
    (Heavy.deallocate_df (client w) tdf CPU (or_default 0 device_id)
                         (trace c),
     log (RpcDeallocateDf tdf CPU (or_default 0 device_id)) c).
Proof.
  intros Htag. unfold deallocate_ipc, get_tdf, bind, call.
  rewrite Htag. reflexivity.
Qed.

Lemma deallocate_ipc_gpu_tagged w df tdf device_id c :
  descriptor_tag df = Some tdf ->
  deallocate_ipc_gpu w df device_id c =
    (Heavy.deallocate_df (client w) tdf GPU (or_default 0 device_id)
                         (trace c),
     log (RpcDeallocateDf tdf GPU (or_default 0 device_id)) c).
Proof.
  intros Htag. unfold deallocate_ipc_gpu, get_tdf, bind, call.
  rewrite Htag. reflexivity.
Qed.

(** C7.  Releasing a table that carries no descriptor tag, through
    [deallocate_ipc] or [deallocate_ipc_gpu], fails with the attribute
    error of the missing [get_tdf] (the spec's [NoDescriptor]) and leaves
    the connection as it was: no deallocate RPC, nor anything else, is
    issued. *)
Theorem release_without_descriptor_fails :
  forall w df device_id c,
    descriptor_tag df = None ->
    deallocate_ipc w df device_id c = (Raise AttributeError_get_tdf, c) /\
    deallocate_ipc_gpu w df device_id c = (Raise AttributeError_get_tdf, c).
Proof.
  intros w df device_id c Htag.
  unfold deallocate_ipc, deallocate_ipc_gpu, get_tdf, bind.
  rewrite Htag. split; reflexivity.
Qed.

Lemma release_without_descriptor_fails_witness :
  descriptor_tag Sample.caller_frame = None /\
  deallocate_ipc Sample.healthy Sample.caller_frame None Sample.fresh
    = (Raise AttributeError_get_tdf, Sample.fresh) /\
  deallocate_ipc_gpu Sample.healthy Sample.caller_frame None Sample.fresh
    = (Raise AttributeError_get_tdf, Sample.fresh).
Proof.
  split; [reflexivity|].
  apply (@release_without_descriptor_fails
           Sample.healthy Sample.caller_frame None Sample.fresh).
  reflexivity.
Defined.

(** C8, as the code has it.  A release call on a tagged table issues one
    deallocate RPC that carries the table's descriptor, the device kind
    of the method ([CPU] for [deallocate_ipc], [GPU] for
    [deallocate_ipc_gpu]) and the device id the caller gave; when the
    caller gives none the device id is the constant 0. *)
Theorem release_carries_kind_and_given_device :
  forall w df tdf c,
    descriptor_tag df = Some tdf ->
    (forall d, issued_by (deallocate_ipc w df (Some d)) c
               = [RpcDeallocateDf tdf CPU d]) /\
    issued_by (deallocate_ipc w df None) c = [RpcDeallocateDf tdf CPU 0] /\
    (forall d, issued_by (deallocate_ipc_gpu w df (Some d)) c
               = [RpcDeallocateDf tdf GPU d]) /\
    issued_by (deallocate_ipc_gpu w df None) c = [RpcDeallocateDf tdf GPU 0].
Proof.
  intros w df tdf c Htag.
  repeat split; intros; apply issued_by_extension;
    first [ rewrite (deallocate_ipc_tagged w df _ c Htag)
          | rewrite (deallocate_ipc_gpu_tagged w df _ c Htag) ];
    reflexivity.
Qed.

Lemma release_carries_kind_and_given_device_witness :
  descriptor_tag Sample.fetched_frame = Some Sample.tdf0 /\
  issued_by (deallocate_ipc_gpu Sample.healthy Sample.fetched_frame (Some 3))
            Sample.fresh
    = [RpcDeallocateDf Sample.tdf0 GPU 3].
Proof.
  split; [reflexivity|].
  apply (@release_carries_kind_and_given_device
           Sample.healthy Sample.fetched_frame Sample.tdf0 Sample.fresh).
  reflexivity.
Defined.

(** C8 as stated fails: a result fetched to GPU 1 with the default
    [release_memory] is deallocated on device 0, so the automatic release
    does not go to the device the result was fetched to. *)
Lemma automatic_gpu_release_ignores_fetch_device :
  issued_by (select_ipc_gpu Sample.healthy "select 1" None 1
                            default_first_n default_release_memory)
            Sample.fresh
    = [RegisterRuntimeUdfs;
       RpcSqlExecuteGdf "select 1" 1 (-1);
       RpcDeallocateDf Sample.tdf0 GPU 0] /\
  ~ (forall w op device_id c tdf d,
        In (RpcDeallocateDf tdf GPU d)
           (issued_by (select_ipc_gpu w op None device_id default_first_n
                                      default_release_memory) c) ->
        d = device_id).
Proof.
  split; [reflexivity|].
  intros H.
  specialize (H Sample.healthy "select 1" 1 Sample.fresh Sample.tdf0 0).
  assert (E : 0 = 1) by (apply H; vm_compute; auto).
  discriminate E.
Qed.

(** C2, as the code has it.  The client keeps no record of releases:
    each release of a tagged table issues a deallocate RPC for the tagged
    descriptor, also when it follows an earlier release of the same
    table, and its outcome is whatever the server answers to that RPC.
    The same holds for [deallocate_ipc] and [deallocate_ipc_gpu]. *)
Theorem every_release_issues_a_deallocate :
  forall w df tdf d1 d2 c,
    descriptor_tag df = Some tdf ->
    (let first := deallocate_ipc w df d1 c in
     let second := deallocate_ipc w df d2 (snd first) in
     trace (snd second)
       = trace c ++ [RpcDeallocateDf tdf CPU (or_default 0 d1);
                     RpcDeallocateDf tdf CPU (or_default 0 d2)] /\
     fst second
       = Heavy.deallocate_df (client w) tdf CPU (or_default 0 d2)
           (trace c ++ [RpcDeallocateDf tdf CPU (or_default 0 d1)])) /\
    (let first := deallocate_ipc_gpu w df d1 c in
     let second := deallocate_ipc_gpu w df d2 (snd first) in
     trace (snd second)
       = trace c ++ [RpcDeallocateDf tdf GPU (or_default 0 d1);
                     RpcDeallocateDf tdf GPU (or_default 0 d2)] /\
     fst second
       = Heavy.deallocate_df (client w) tdf GPU (or_default 0 d2)
           (trace c ++ [RpcDeallocateDf tdf GPU (or_default 0 d1)])).
Proof.
  intros w df tdf d1 d2 c Htag. split; cbv zeta.
  - rewrite (deallocate_ipc_tagged w df d1 c Htag). cbn [snd].
    rewrite (deallocate_ipc_tagged w df d2 _ Htag). cbn [snd fst].
    rewrite !trace_log, <- app_assoc. split; reflexivity.
  - rewrite (deallocate_ipc_gpu_tagged w df d1 c Htag). cbn [snd].
    rewrite (deallocate_ipc_gpu_tagged w df d2 _ Htag). cbn [snd fst].
    rewrite !trace_log, <- app_assoc. split; reflexivity.
Qed.

Lemma every_release_issues_a_deallocate_witness :
  descriptor_tag Sample.fetched_frame = Some Sample.tdf0 /\
  trace (snd (deallocate_ipc Sample.healthy Sample.fetched_frame None
                (snd (deallocate_ipc Sample.healthy Sample.fetched_frame
                                     None Sample.fresh))))
    = [RpcDeallocateDf Sample.tdf0 CPU 0; RpcDeallocateDf Sample.tdf0 CPU 0].
Proof.
  split; [reflexivity|].
  apply (@every_release_issues_a_deallocate
           Sample.healthy Sample.fetched_frame Sample.tdf0 None None
           Sample.fresh).
  reflexivity.
Defined.

(** C2 as stated fails: after a release that succeeded, a second release
    of the same table neither raises nor stays local.  It returns
    normally and a second deallocate RPC has gone out, on the CPU path
    and on the GPU path. *)
Lemma second_release_reaches_the_server :
  (let first :=
     deallocate_ipc Sample.healthy Sample.fetched_frame None Sample.fresh in
   let second :=
     deallocate_ipc Sample.healthy Sample.fetched_frame None (snd first) in
   fst first = Ok tt /\ fst second = Ok tt /\
   count is_deallocate (trace (snd first)) = 1%nat /\
   count is_deallocate (trace (snd second)) = 2%nat) /\
  (let first :=
     deallocate_ipc_gpu Sample.healthy Sample.fetched_frame None
                        Sample.fresh in
   let second :=
     deallocate_ipc_gpu Sample.healthy Sample.fetched_frame None
                        (snd first) in
   fst first = Ok tt /\ fst second = Ok tt /\
   count is_deallocate (trace (snd first)) = 1%nat /\
   count is_deallocate (trace (snd second)) = 2%nat).
Proof. repeat split. Qed.

(** ** Columnar load *)

(** C5.  When the table's current schema, as [get_table_details] returns
    it, has a number of columns different from the frame's,
    [load_table_columnar] raises the column-count [ValueError] (the
    spec's [SchemaMismatch]); the only request that went out is the
    schema lookup, so no load RPC is issued. *)
Theorem columnar_load_rejects_column_count_mismatch :
  forall w table_name df preserve_index chunk_size_bytes
         col_names_from_schema column_names c row_desc details,
    Heavy.get_table_details (client w) table_name (trace c) = Ok row_desc ->
    _extract_column_details w row_desc = Ok details ->
    List.length details <> List.length (columns (frame df)) ->
    load_table_columnar w table_name (PdDataFrame df) preserve_index
                        chunk_size_bytes col_names_from_schema
                        column_names c
      = (Raise (ValueError_column_count
                  (List.length (columns (frame df)))
                  (List.length details)),
         log (RpcGetTableDetails table_name) c) /\
    issued_by (load_table_columnar w table_name (PdDataFrame df)
                 preserve_index chunk_size_bytes col_names_from_schema
                 column_names) c
      = [RpcGetTableDetails table_name] /\
    count is_load_rpc
          (issued_by (load_table_columnar w table_name (PdDataFrame df)
                        preserve_index chunk_size_bytes
                        col_names_from_schema column_names) c) = 0%nat.
Proof.
  intros w table_name df preserve_index chunk_size_bytes
         col_names_from_schema column_names c row_desc details
         Hrpc Hextract Hlen.
  assert (Hrun :
    load_table_columnar w table_name (PdDataFrame df) preserve_index
                        chunk_size_bytes col_names_from_schema
                        column_names c
      = (Raise (ValueError_column_count
                  (List.length (columns (frame df)))
                  (List.length details)),
         log (RpcGetTableDetails table_name) c)).
  { unfold load_table_columnar, get_table_details, bind, call, lift.
    rewrite Hrpc, Hextract.
    apply Nat.eqb_neq in Hlen. rewrite Hlen. reflexivity. }
  assert (Hnew :
    issued_by (load_table_columnar w table_name (PdDataFrame df)
                 preserve_index chunk_size_bytes col_names_from_schema
                 column_names) c
      = [RpcGetTableDetails table_name]).
  { apply issued_by_extension. rewrite Hrun. reflexivity. }
  repeat split; auto. rewrite Hnew. reflexivity.
Qed.

Lemma columnar_load_rejects_column_count_mismatch_witness :
  List.length (map Sample.details_of [mkTColumnType "a" "INT"])
    <> List.length (columns (frame Sample.two_columns)) /\
  load_table_columnar Sample.healthy "t" (PdDataFrame Sample.two_columns)
                      false 0 false [] Sample.fresh
    = (Raise (ValueError_column_count 2 1),
       log (RpcGetTableDetails "t") Sample.fresh).
Proof.
  split; [simpl; lia|].
  apply (@columnar_load_rejects_column_count_mismatch
           Sample.healthy "t" Sample.two_columns false 0 false []
           Sample.fresh [mkTColumnType "a" "INT"]
           (map Sample.details_of [mkTColumnType "a" "INT"]));
    [reflexivity | reflexivity | simpl; lia].
Defined.

(** ** Fetch *)



Lemma bind_operation_pure w op params c :
  bind_operation w op params c = (fst (bind_operation w op params c), c).
Proof. destruct params; reflexivity. Qed.



(** Unfolds the monad and splits on the next collaborator's answer. *)
Ltac unfold_monad :=
  unfold get_tdf in *;
  unfold bind, call, call_silent, lift, ret, raise, set_self_tdf in *;
  cbv beta in *.

Ltac split_outcome :=
  match goal with
  | |- context [match ?o with Ok _ => _ | Raise _ => _ end] =>
      destruct o eqn:?
  | |- context [match ?o with Some _ => _ | None => _ end] =>
      destruct o eqn:?
  | |- context [if ?b then _ else _] =>
      destruct b eqn:?
  | |- context [let (_, _) := ?x in _] =>
      destruct x eqn:?
  end; cbn [fst snd] in *.

Lemma select_ipc_wire_emits w op params first_n release_memory :
  emits no_deallocate
        (select_ipc w op params first_n release_memory WIRE).
Proof.
  unfold select_ipc, register_runtime_udfs, bind_operation.
  cbn [transport_eqb]. emits_auto.
Qed.

Lemma select_ipc_unreleased_emits w op params first_n transport_method :
  emits no_deallocate
        (select_ipc w op params first_n false transport_method).
Proof.
  unfold select_ipc, register_runtime_udfs, bind_operation.
  emits_auto.
Qed.

Lemma select_ipc_gpu_unreleased_emits w op params device_id first_n :
  emits no_deallocate
        (select_ipc_gpu w op params device_id first_n false).
Proof.
  unfold select_ipc_gpu, register_runtime_udfs, bind_operation.
  emits_auto.
Qed.

Lemma emits_count_zero (A : Type) (p : Event -> bool) (m : M A) (c : Conn) :
  emits (fun e => negb (p e)) m -> count p (issued_by m c) = 0%nat.
Proof.
  intros Hm. apply forallb_negb_count.
  apply (emits_issued c Hm).
Qed.

(** C10.  On the [WIRE] transport the frame [select_ipc] returns has no
    descriptor tag, the call issues no deallocate RPC, and
    [release_memory] makes no difference to what the call does; the
    same indifference holds for every transport other than
    [SHARED_MEMORY]. *)
Theorem wire_fetch_is_untagged_and_never_releases :
  forall w op params first_n release_memory c,
    (forall df,
        fst (select_ipc w op params first_n release_memory WIRE c) = Ok df ->
        descriptor_tag df = None) /\
    count is_deallocate
          (issued_by (select_ipc w op params first_n release_memory WIRE) c)
      = 0%nat /\
    select_ipc w op params first_n true WIRE c
      = select_ipc w op params first_n false WIRE c /\
    (forall raw,
        select_ipc w op params first_n true (UNKNOWN_TRANSPORT raw) c
        = select_ipc w op params first_n false (UNKNOWN_TRANSPORT raw) c).
Proof.
  intros w op params first_n release_memory c.
  split; [|split; [|split]].
  - intros df. unfold select_ipc, register_runtime_udfs.
    cbn [transport_eqb]. unfold_monad.
    repeat split_outcome; intros H; try discriminate H.
    injection H as <-. reflexivity.
  - apply emits_count_zero. apply select_ipc_wire_emits.
  - reflexivity.
  - intros raw. reflexivity.
Qed.

Lemma wire_fetch_is_untagged_and_never_releases_witness :
  fst (select_ipc Sample.healthy "select 1" None default_first_n true WIRE
                  Sample.fresh) = Ok (plain Sample.fd0) /\
  descriptor_tag (plain Sample.fd0) = None.
Proof.
  split; [reflexivity|].
  apply (proj1 (@wire_fetch_is_untagged_and_never_releases
                  Sample.healthy "select 1" None default_first_n true
                  Sample.fresh)).
  reflexivity.
Defined.

Ltac close_issued :=
  cbn [trace log store_tdf]; rewrite <- ?app_assoc; cbn [app];
  apply skipn_length_app.

Lemma select_ipc_gpu_released w op params device_id first_n c df :
  fst (select_ipc_gpu w op params device_id first_n true c) = Ok df ->
  exists q tdf,
    descriptor_tag df = Some tdf /\
    issued_by (select_ipc_gpu w op params device_id first_n true) c
      = [RegisterRuntimeUdfs;
         RpcSqlExecuteGdf q device_id first_n;
         RpcDeallocateDf tdf GPU 0].
Proof.
  unfold issued_by, select_ipc_gpu, deallocate_ipc_gpu,
    register_runtime_udfs, bind_operation, or_default.
  unfold_monad.
  repeat split_outcome; intros H; try discriminate H;
    injection H as <-; do 2 eexists; (split; [eassumption|]);
    close_issued.
Qed.

Lemma select_ipc_shared_released w op params first_n c df :
  fst (select_ipc w op params first_n true SHARED_MEMORY c) = Ok df ->
  exists q tdf address,
    descriptor_tag df = Some tdf /\
    issued_by (select_ipc w op params first_n true SHARED_MEMORY) c
      = [RegisterRuntimeUdfs;
         RpcSqlExecuteDf q 0 0 first_n SHARED_MEMORY;
         ShmAttach (df_handle tdf) (df_size tdf);
         ShmDetach address;
         RpcDeallocateDf tdf CPU 0].
Proof.
  unfold issued_by, select_ipc, deallocate_ipc, register_runtime_udfs,
    bind_operation, or_default, set_tdf, plain.
  cbn [transport_eqb]. unfold_monad. cbn [descriptor_tag].
  repeat split_outcome; intros H; try discriminate H;
    injection H as <-; do 3 eexists; (split; [reflexivity|]);
    close_issued.
Qed.

(** C9, as the code has it.  Whether a fetch releases on its own is
    decided by [release_memory], which is on by default.  [select_ipc]
    with its default options uses the [WIRE] transport and issues no
    deallocate RPC, and no fetch issues one when [release_memory] is off.
    With [release_memory] on, as by default, every [select_ipc_gpu] that
    returns a table has itself issued the deallocate RPC for that
    table's descriptor (kind [GPU], device 0), and so has every
    [select_ipc] on [SHARED_MEMORY] (kind [CPU], device 0). *)
Theorem fetch_releases_by_default_unless_wire :
  forall w op params device_id first_n transport_method c,
    count is_deallocate
          (issued_by (select_ipc w op params default_first_n
                                 default_release_memory
                                 default_transport_method) c) = 0%nat /\
    count is_deallocate
          (issued_by (select_ipc w op params first_n false
                                 transport_method) c) = 0%nat /\
    count is_deallocate
          (issued_by (select_ipc_gpu w op params device_id first_n false) c)
      = 0%nat /\
    (forall df,
        fst (select_ipc_gpu w op params device_id first_n
                            default_release_memory c) = Ok df ->
        exists q tdf,
          descriptor_tag df = Some tdf /\
          issued_by (select_ipc_gpu w op params device_id first_n
                                    default_release_memory) c
            = [RegisterRuntimeUdfs;
               RpcSqlExecuteGdf q device_id first_n;
               RpcDeallocateDf tdf GPU 0]) /\
    (forall df,
        fst (select_ipc w op params first_n default_release_memory
                        SHARED_MEMORY c) = Ok df ->
        exists q tdf address,
          descriptor_tag df = Some tdf /\
          issued_by (select_ipc w op params first_n default_release_memory
                                SHARED_MEMORY) c
            = [RegisterRuntimeUdfs;
               RpcSqlExecuteDf q 0 0 first_n SHARED_MEMORY;
               ShmAttach (df_handle tdf) (df_size tdf);
               ShmDetach address;
               RpcDeallocateDf tdf CPU 0]).
Proof.
  intros w op params device_id first_n transport_method c.
  repeat split.
  - apply emits_count_zero. apply select_ipc_wire_emits.
  - apply emits_count_zero. apply select_ipc_unreleased_emits.
  - apply emits_count_zero. apply select_ipc_gpu_unreleased_emits.
  - apply select_ipc_gpu_released.
  - apply select_ipc_shared_released.
Qed.

Lemma fetch_releases_by_default_unless_wire_witness :
  fst (select_ipc_gpu Sample.healthy "select 1" None default_device_id
                      default_first_n default_release_memory Sample.fresh)
    = Ok Sample.fetched_frame /\
  exists q tdf,
    descriptor_tag Sample.fetched_frame = Some tdf /\
    issued_by (select_ipc_gpu Sample.healthy "select 1" None
                              default_device_id default_first_n
                              default_release_memory) Sample.fresh
      = [RegisterRuntimeUdfs;
         RpcSqlExecuteGdf q default_device_id default_first_n;
         RpcDeallocateDf tdf GPU 0].
Proof.
  split; [reflexivity|].
  apply (@fetch_releases_by_default_unless_wire
           Sample.healthy "select 1" None default_device_id
           default_first_n WIRE Sample.fresh).
  reflexivity.
Defined.

(** C9 as stated fails: [select_ipc_gpu] called with nothing but the
    query, every option at its default, has issued a deallocate RPC by
    the time it returns, without the caller asking for a release. *)
Lemma default_gpu_fetch_releases_on_its_own :
  fst (select_ipc_gpu Sample.healthy "select 1" None default_device_id
                      default_first_n default_release_memory Sample.fresh)
    = Ok Sample.fetched_frame /\
  issued_by (select_ipc_gpu Sample.healthy "select 1" None default_device_id
                            default_first_n default_release_memory)
            Sample.fresh
    = [RegisterRuntimeUdfs;
       RpcSqlExecuteGdf "select 1" 0 (-1);
       RpcDeallocateDf Sample.tdf0 GPU 0] /\
  count is_deallocate
        (issued_by (select_ipc_gpu Sample.healthy "select 1" None
                                   default_device_id default_first_n
                                   default_release_memory) Sample.fresh)
    = 1%nat.
Proof. repeat split. Qed.

Ltac normalise_logs :=
  cbn [trace log store_tdf] in *; rewrite <- ?app_assoc in *;
  cbn [app] in *.








(** The same happens when the stream decodes but the result has a
    column called [set_tdf]: binding the descriptor raises, after the
    decoding and before the [shmdt], and the segment stays attached. *)
Lemma shadowing_column_leaves_segment_attached :
  decode Scenario.shadowing_column [x41; x52]
    = Ok Scenario.shadowed_frame /\
  select_ipc Scenario.shadowing_column "select 1" None default_first_n
             default_release_memory SHARED_MEMORY Sample.fresh
    = (Raise (Foreign "TypeError: 'Series' object is not callable"),
       mkConn "session" (Some Sample.tdf0)
              [RegisterRuntimeUdfs;
               RpcSqlExecuteDf "select 1" 0 0 (-1) SHARED_MEMORY;
               ShmAttach [x07] 2]) /\
  count is_detach
        (issued_by (select_ipc Scenario.shadowing_column "select 1" None
                               default_first_n default_release_memory
                               SHARED_MEMORY) Sample.fresh) = 0%nat.
Proof. repeat split. Qed.

(** ** Load *)

Ltac emits_load_step :=
  first
    [ emits_step
    | progress cbv beta iota
    | match goal with
      | |- emits _ (match ?d with _ => _ end) => destruct d
      end ].

Lemma send_batches_emits (p : Event -> bool) w table_name input_cols
      column_names :
  (forall cols,
      p (RpcLoadTableBinaryColumnar table_name cols column_names) = true) ->
  emits p (send_batches w table_name input_cols column_names).
Proof.
  intros Hp. induction input_cols as [|cols rest IH]; simpl.
  - apply emits_ret.
  - apply emits_bind; [apply emits_call; apply Hp | intros _; exact IH].
Qed.

Lemma create_step_emits w table_name data create :
  emits no_load_rpc (create_step w table_name data create).
Proof.
  unfold create_step, get_tables, create_table. repeat emits_load_step.
Qed.

Lemma py_in_valid_method method :
  py_in method valid_method = false ->
  py_eq method (PyStr "infer") = false /\
  py_eq method (PyStr "arrow") = false /\
  py_eq method (PyStr "columnar") = false /\
  py_eq method (PyStr "rows") = false.
Proof.
  unfold py_in, valid_method. cbn [existsb].
  rewrite !orb_false_iff. tauto.
Qed.

Lemma load_table_bad_create w table_name data method preserve_index create
      column_names c :
  py_in create valid_create = false ->
  load_table w table_name data method preserve_index create column_names c
    = (Raise (ValueError_create create), c).
Proof.
  intros H. unfold load_table. fold valid_create. rewrite H. reflexivity.
Qed.

Lemma load_table_bad_method w table_name data method preserve_index create
      column_names c :
  py_in create valid_create = true ->
  py_in method valid_method = false ->
  load_table w table_name data method preserve_index create column_names c
    = bind (create_step w table_name data create)
           (fun _ => raise (TypeError_method method)) c.
Proof.
  intros Hc Hm. apply py_in_valid_method in Hm.
  destruct Hm as (Hi & Ha & Hcol & Hr).
  unfold load_table, create_step. fold valid_create.
  rewrite Hc, Hi, Ha, Hcol, Hr. cbn [negb].
  unfold bind.
  repeat split_outcome; reflexivity.
Qed.

Lemma issued_by_pointwise (A : Type) (m m' : M A) (c : Conn) :
  m c = m' c -> issued_by m c = issued_by m' c.
Proof. unfold issued_by. intros ->. reflexivity. Qed.

Lemma falsy_create_is_not_infer create :
  py_in create valid_create = true ->
  py_truthy create = false ->
  py_eq create (PyStr "infer") = false.
Proof.
  destruct create as [s|b|z|]; simpl; auto.
  rewrite !orb_false_r. intros Hs. apply String.eqb_eq in Hs. subst s.
  discriminate.
Qed.

(** C3, as the code has it.  A [create] literal outside
    [{'infer', True, False}] (membership by Python's [==]) raises its
    [ValueError] before anything is issued and leaves the connection
    untouched.  A [method] literal
    outside [{'infer', 'arrow', 'columnar', 'rows'}] is found only after
    the table creation policy has run: the call is that policy (the
    table list query under [create='infer'], the table creation when it
    is due) followed by the [TypeError].  It always raises, it issues no
    load RPC, and with a false [create] it issues nothing at all. *)
Theorem load_table_validation_order :
  forall w table_name data method preserve_index create column_names c,
    (py_in create valid_create = false ->
     load_table w table_name data method preserve_index create
                column_names c
       = (Raise (ValueError_create create), c)) /\
    (py_in create valid_create = true ->
     py_in method valid_method = false ->
     load_table w table_name data method preserve_index create
                column_names c
       = bind (create_step w table_name data create)
              (fun _ => raise (TypeError_method method)) c /\
     (exists e,
         fst (load_table w table_name data method preserve_index create
                         column_names c) = Raise e) /\
     count is_load_rpc
           (issued_by (load_table w table_name data method preserve_index
                                  create column_names) c) = 0%nat /\
     (py_truthy create = false ->
      load_table w table_name data method preserve_index create
                 column_names c
        = (Raise (TypeError_method method), c))).
Proof.
  intros w table_name data method preserve_index create column_names c.
  split; [apply load_table_bad_create|].
  intros Hc Hm.
  pose proof (@load_table_bad_method w table_name data method
                                     preserve_index create column_names c
                                     Hc Hm) as Hrun.
  split; [exact Hrun|]. split; [|split].
  - rewrite Hrun. unfold bind, raise.
    destruct (create_step w table_name data create c) as [[u|e] c'];
      eexists; reflexivity.
  - rewrite (@issued_by_pointwise _ _ _ c Hrun).
    apply emits_count_zero.
    apply emits_bind; [apply create_step_emits | intros _; apply emits_raise].
  - intros Hfalse. rewrite Hrun.
    unfold bind, create_step, bind, ret, raise.
    rewrite (@falsy_create_is_not_infer create Hc Hfalse), Hfalse.
    reflexivity.
Qed.

Lemma load_table_validation_order_witness :
  py_in (PyBool false) valid_create = true /\
  py_in (PyStr "bulk") valid_method = false /\
  load_table Sample.healthy "t" (TupleSeq [[PyInt 1]]) (PyStr "bulk") false
             (PyBool false) [] Sample.fresh
    = (Raise (TypeError_method (PyStr "bulk")), Sample.fresh).
Proof.
  split; [reflexivity|]. split; [reflexivity|].
  refine (proj2 (proj2 (proj2
            (proj2 (@load_table_validation_order
                      Sample.healthy "t" (TupleSeq [[PyInt 1]])
                      (PyStr "bulk") false (PyBool false) []
                      Sample.fresh) _ _))) _);
    reflexivity.
Defined.

(** C3 as stated fails: with the default [create='infer'] an invalid
    [method] is reported only after the table list has been queried and
    the missing table created; two requests have gone out before the
    error. *)
Lemma bad_method_is_found_after_table_creation :
  py_in (PyStr "bulk") valid_method = false /\
  load_table Sample.healthy "t" (PdDataFrame Sample.caller_frame)
             (PyStr "bulk") false (PyStr "infer") [] Sample.fresh
    = (Raise (TypeError_method (PyStr "bulk")),
       mkConn "session" None
              [RpcGetTables; RpcCreateTable "t" [mkTColumnType "a" "INT"]]) /\
  count is_rpc
        (issued_by (load_table Sample.healthy "t"
                               (PdDataFrame Sample.caller_frame)
                               (PyStr "bulk") false (PyStr "infer") [])
                   Sample.fresh) = 2%nat.
Proof. repeat split. Qed.

Lemma load_table_infer_dispatch w table_name data preserve_index create
      column_names c :
  py_in create valid_create = true ->
  load_table w table_name data (PyStr "infer") preserve_index create
             column_names c
    = bind (create_step w table_name data create)
           (fun _ =>
              if is_columnar_structure data
              then load_table_arrow w table_name data false []
              else load_table_rows_tail w table_name data preserve_index
                                        column_names) c.
Proof.
  intros Hc. unfold load_table, create_step. fold valid_create.
  rewrite Hc. cbn [negb py_eq String.eqb Ascii.eqb Bool.eqb].
  unfold bind.
  repeat split_outcome; try reflexivity;
    destruct data; cbn in *; try discriminate; reflexivity.
Qed.

Lemma load_table_without_columnar w table_name data method preserve_index
      create column_names :
  py_eq method (PyStr "columnar") = false ->
  emits no_columnar_load
        (load_table w table_name data method preserve_index create
                    column_names).
Proof.
  intros Hm.
  unfold load_table, get_tables, create_table, load_table_arrow,
    load_table_rows_tail, get_table_details.
  rewrite Hm.
  destruct data; cbn [is_pd_DataFrame is_pa_Table is_pa_RecordBatch orb];
    repeat emits_load_step.
Qed.

Lemma load_table_without_rowwise w table_name data method preserve_index
      create column_names :
  py_eq method (PyStr "rows") = false ->
  py_eq method (PyStr "infer") = false \/
  is_columnar_structure data = true ->
  emits (fun e => negb (is_rowwise_load e))
        (load_table w table_name data method preserve_index create
                    column_names).
Proof.
  intros Hr Hi.
  unfold load_table, get_tables, create_table, load_table_arrow,
    load_table_columnar, get_table_details.
  rewrite Hr.
  destruct Hi as [Hi|Hs].
  - rewrite Hi.
    repeat first [ apply send_batches_emits; reflexivity
                 | emits_load_step ].
  - destruct data; try discriminate Hs;
      cbn [is_pd_DataFrame is_pa_Table is_pa_RecordBatch orb];
      repeat first [ apply send_batches_emits; reflexivity
                   | emits_load_step ].
Qed.

(** C4, as the code has it.  With [method='infer'] the call is the table
    creation policy followed by the Arrow loader when the data is a
    pandas DataFrame, a pyarrow Table or a pyarrow RecordBatch, and by
    the row-wise tail of [load_table] for any other data.  The columnar
    loader is reached only through an explicit [method='columnar']: any
    other method issues no columnar load RPC.  The row-wise load RPC is
    issued only when [method='rows'] or when [method='infer'] meets data
    that is none of the three columnar types. *)
Theorem infer_picks_arrow_else_rowwise :
  forall w table_name data method preserve_index create column_names c,
    (py_in create valid_create = true ->
     load_table w table_name data (PyStr "infer") preserve_index create
                column_names c
       = bind (create_step w table_name data create)
              (fun _ =>
                 if is_columnar_structure data
                 then load_table_arrow w table_name data false []
                 else load_table_rows_tail w table_name data preserve_index
                                           column_names) c) /\
    (py_eq method (PyStr "columnar") = false ->
     count is_columnar_load
           (issued_by (load_table w table_name data method preserve_index
                                  create column_names) c) = 0%nat) /\
    (py_eq method (PyStr "rows") = false ->
     py_eq method (PyStr "infer") = false \/
     is_columnar_structure data = true ->
     count is_rowwise_load
           (issued_by (load_table w table_name data method preserve_index
                                  create column_names) c) = 0%nat).
Proof.
  intros w table_name data method preserve_index create column_names c.
  split; [apply load_table_infer_dispatch|]. split.
  - intros Hm. apply emits_count_zero.
    apply load_table_without_columnar. exact Hm.
  - intros Hr Hi. apply emits_count_zero.
    apply load_table_without_rowwise; assumption.
Qed.

Lemma infer_picks_arrow_else_rowwise_witness :
  py_in (PyBool false) valid_create = true /\
  load_table Sample.healthy "t" (TupleSeq [[PyInt 1]]) (PyStr "infer") false
             (PyBool false) [] Sample.fresh
    = bind (create_step Sample.healthy "t" (TupleSeq [[PyInt 1]])
                        (PyBool false))
           (fun _ =>
              if is_columnar_structure (TupleSeq [[PyInt 1]])
              then load_table_arrow Sample.healthy "t"
                                    (TupleSeq [[PyInt 1]]) false []
              else load_table_rows_tail Sample.healthy "t"
                                        (TupleSeq [[PyInt 1]]) false [])
           Sample.fresh.
Proof.
  split; [reflexivity|].
  refine (proj1 (@infer_picks_arrow_else_rowwise
                   Sample.healthy "t" (TupleSeq [[PyInt 1]]) (PyStr "infer")
                   false (PyBool false) [] Sample.fresh) _).
  reflexivity.
Defined.

(** C4 as stated fails: under [method='infer'] data that is none of the
    three columnar types does not go to the columnar loader, which would
    refuse it with a [TypeError]; it is loaded row-wise.  This is so for
    a list of lists and for a sequence of tuples alike. *)
Lemma infer_sends_other_data_rowwise :
  is_columnar_structure (OtherObject "list of lists") = false /\
  load_table Sample.healthy "t" (OtherObject "list of lists")
             (PyStr "infer") false (PyBool false) [] Sample.fresh
    = (Ok tt,
       mkConn "session" None
              [RpcLoadTable "t" [[mkTStringValue "1" false]] []]) /\
  load_table_columnar Sample.healthy "t" (OtherObject "list of lists")
                      false 0 false [] Sample.fresh
    = (Raise TypeError_unknown_type, Sample.fresh) /\
  load_table Sample.healthy "t" (TupleSeq [[PyInt 1]])
             (PyStr "infer") false (PyBool false) [] Sample.fresh
    = (Ok tt,
       mkConn "session" None
              [RpcLoadTable "t" [[mkTStringValue "1" false]] []]) /\
  count is_columnar_load
        (issued_by (load_table Sample.healthy "t"
                               (OtherObject "list of lists")
                               (PyStr "infer") false (PyBool false) [])
                   Sample.fresh) = 0%nat /\
  count is_rowwise_load
        (issued_by (load_table Sample.healthy "t"
                               (OtherObject "list of lists")
                               (PyStr "infer") false (PyBool false) [])
                   Sample.fresh) = 1%nat.
Proof. repeat split. Qed.

(** * Further properties of the module *)

(** ** The creation policy of [load_table] *)

Lemma load_table_infer_queries w table_name data method preserve_index
      column_names c :
  load_table w table_name data method preserve_index (PyStr "infer")
             column_names c
    = bind (get_tables w)
           (fun tables =>
              load_table w table_name data method preserve_index
                         (PyBool (not_in_tables table_name tables))
                         column_names) c.
Proof.
  unfold load_table, bind, ret.
  cbn [py_in existsb py_eq String.eqb Ascii.eqb Bool.eqb orb negb].
  destruct (get_tables w c) as [[tables|e] c1]; [|reflexivity].
  destruct (not_in_tables table_name tables); reflexivity.
Qed.

Lemma load_table_true_creates w table_name data method preserve_index
      column_names c :
  load_table w table_name data method preserve_index (PyBool true)
             column_names c
    = bind (create_table w table_name data false)
           (fun _ =>
              load_table w table_name data method preserve_index
                         (PyBool false) column_names) c.
Proof.
  unfold load_table, bind, ret.
  cbn [py_in existsb py_eq String.eqb Ascii.eqb Bool.eqb orb negb
       py_truthy].
  destruct (create_table w table_name data false c) as [[u|e] c1];
    reflexivity.
Qed.

(** X1.  [create='infer'] is the table list query followed by the same
    load with [create] set to whether the table is missing from the
    answer, and [create=True] is [create_table] (without the index)
    followed by the same load with [create=False]. *)
Theorem load_table_create_policy :
  forall w table_name data method preserve_index column_names c,
    load_table w table_name data method preserve_index (PyStr "infer")
               column_names c
      = bind (get_tables w)
             (fun tables =>
                load_table w table_name data method preserve_index
                           (PyBool (not_in_tables table_name tables))
                           column_names) c /\
    load_table w table_name data method preserve_index (PyBool true)
               column_names c
      = bind (create_table w table_name data false)
             (fun _ =>
                load_table w table_name data method preserve_index
                           (PyBool false) column_names) c.
Proof.
  intros. split;
    [apply load_table_infer_queries | apply load_table_true_creates].
Qed.

(** X2.  The check of [create] goes by [==], so an integer passes it
    exactly when it is 1 or 0.  With 1 the call is the one with
    [create=True], with 0 the one with [create=False], and any other
    integer raises the [ValueError] with nothing issued. *)
Theorem integer_create_acts_as_boolean :
  forall w table_name data method preserve_index column_names c,
    (forall z, py_in (PyInt z) valid_create = true <-> z = 1 \/ z = 0) /\
    load_table w table_name data method preserve_index (PyInt 1)
               column_names c
      = load_table w table_name data method preserve_index (PyBool true)
                   column_names c /\
    load_table w table_name data method preserve_index (PyInt 0)
               column_names c
      = load_table w table_name data method preserve_index (PyBool false)
                   column_names c /\
    (forall z,
        z <> 1 -> z <> 0 ->
        load_table w table_name data method preserve_index (PyInt z)
                   column_names c
          = (Raise (ValueError_create (PyInt z)), c)).
Proof.
  intros w table_name data method preserve_index column_names c.
  assert (Hin : forall z,
             py_in (PyInt z) valid_create = true <-> z = 1 \/ z = 0).
  { intros z. unfold py_in, valid_create.
    cbn [existsb py_eq Z_of_bool orb]. rewrite orb_false_r, orb_true_iff.
    rewrite !Z.eqb_eq. reflexivity. }
  split; [exact Hin|]. split; [reflexivity|]. split; [reflexivity|].
  intros z H1 H0. apply load_table_bad_create.
  destruct (py_in (PyInt z) valid_create) eqn:E; [|reflexivity].
  apply Hin in E. destruct E; contradiction.
Qed.

Lemma integer_create_acts_as_boolean_witness :
  2 <> 1 /\ 2 <> 0 /\
  load_table Sample.healthy "t" (PdDataFrame Sample.caller_frame)
             (PyStr "arrow") false (PyInt 2) [] Sample.fresh
    = (Raise (ValueError_create (PyInt 2)), Sample.fresh).
Proof.
  split; [discriminate|]. split; [discriminate|].
  apply (proj2 (proj2 (proj2
           (@integer_create_acts_as_boolean
              Sample.healthy "t" (PdDataFrame Sample.caller_frame)
              (PyStr "arrow") false [] Sample.fresh))));
    discriminate.
Defined.

(** X3.  When [create=True] and the table creation raises, be it in
    [build_row_desc] or in the create request, [load_table] stops there:
    it raises the same error in the same state and no load RPC has been
    issued. *)
Theorem failed_creation_aborts_load :
  forall w table_name data method preserve_index column_names c e,
    fst (create_table w table_name data false c) = Raise e ->
    load_table w table_name data method preserve_index (PyBool true)
               column_names c
      = (Raise e, snd (create_table w table_name data false c)) /\
    count is_load_rpc
          (issued_by (load_table w table_name data method preserve_index
                                 (PyBool true) column_names) c) = 0%nat.
Proof.
  intros w table_name data method preserve_index column_names c e He.
  assert (Hrun :
    load_table w table_name data method preserve_index (PyBool true)
               column_names c
      = create_table w table_name data
                     false c).
  { rewrite load_table_true_creates.
    unfold bind.
    destruct (create_table w table_name data false c) as [[u|e'] c1];
      [discriminate He | reflexivity]. }
  split.
  - rewrite Hrun.
    destruct (create_table w table_name data false c) as [o c1].
    cbn [fst snd] in *. subst o. reflexivity.
  - rewrite (@issued_by_pointwise _ _ _ c Hrun).
    apply emits_count_zero.
    unfold create_table. repeat emits_load_step.
Qed.

Lemma failed_creation_aborts_load_witness :
  fst (create_table Sample.healthy "t" (TupleSeq [[PyInt 1]]) false
                    Sample.fresh)
    = Raise (Foreign "TypeError: Create table is not supported") /\
  load_table Sample.healthy "t" (TupleSeq [[PyInt 1]]) (PyStr "rows") false
             (PyBool true) [] Sample.fresh
    = (Raise (Foreign "TypeError: Create table is not supported"),
       Sample.fresh).
Proof.
  split; [reflexivity|].
  apply (@failed_creation_aborts_load
           Sample.healthy "t" (TupleSeq [[PyInt 1]]) (PyStr "rows") false []
           Sample.fresh
           (Foreign "TypeError: Create table is not supported")).
  reflexivity.
Defined.

(** ** Options [load_table] does not pass on *)

(** X4.  [preserve_index] and [column_names] reach the row-wise path
    only.  When the method is not ['rows'] and is not an ['infer'] that
    falls through to the rows (so for ['arrow'], ['columnar'], an invalid
    method, and ['infer'] on a DataFrame, Table or RecordBatch), the call
    does the same whatever these two arguments are. *)
Theorem loaders_ignore_index_and_column_names :
  forall w table_name data method create c
         preserve_index column_names preserve_index' column_names',
    py_eq method (PyStr "rows") = false ->
    py_eq method (PyStr "infer") = false \/
    is_columnar_structure data = true ->
    load_table w table_name data method preserve_index create
               column_names c
      = load_table w table_name data method preserve_index' create
                   column_names' c.
Proof.
  intros w table_name data method create c pi cn pi' cn' Hr Hi.
  unfold load_table. rewrite Hr.
  destruct Hi as [Hi|Hs].
  - rewrite Hi. reflexivity.
  - destruct data; try discriminate Hs; reflexivity.
Qed.

Lemma loaders_ignore_index_and_column_names_witness :
  py_eq (PyStr "infer") (PyStr "rows") = false /\
  is_columnar_structure (PdDataFrame Sample.caller_frame) = true /\
  load_table Sample.healthy "flights" (PdDataFrame Sample.caller_frame)
             (PyStr "infer") true (PyBool false) ["a"] Sample.fresh
    = load_table Sample.healthy "flights" (PdDataFrame Sample.caller_frame)
                 (PyStr "infer") false (PyBool false) [] Sample.fresh.
Proof.
  split; [reflexivity|]. split; [reflexivity|].
  apply (@loaders_ignore_index_and_column_names
           Sample.healthy "flights" (PdDataFrame Sample.caller_frame)
           (PyStr "infer") (PyBool false) Sample.fresh true ["a"] false []);
    [reflexivity | right; reflexivity].
Defined.

(** X5.  The columnar loader refuses anything but a DataFrame before it
    issues anything, also when it is reached through
    [load_table(..., method='columnar', create=False)]. *)
Theorem columnar_loader_needs_a_frame :
  forall w table_name data preserve_index chunk_size_bytes
         col_names_from_schema column_names c,
    is_pd_DataFrame data = false ->
    load_table_columnar w table_name data preserve_index chunk_size_bytes
                        col_names_from_schema column_names c
      = (Raise TypeError_unknown_type, c) /\
    load_table w table_name data (PyStr "columnar") preserve_index
               (PyBool false) column_names c
      = (Raise TypeError_unknown_type, c).
Proof.
  intros w table_name data preserve_index chunk_size_bytes
         col_names_from_schema column_names c H.
  destruct data; try discriminate H; split; reflexivity.
Qed.

Lemma columnar_loader_needs_a_frame_witness :
  is_pd_DataFrame (PaTable Sample.tbl0) = false /\
  load_table Sample.healthy "t" (PaTable Sample.tbl0) (PyStr "columnar")
             false (PyBool false) [] Sample.fresh
    = (Raise TypeError_unknown_type, Sample.fresh).
Proof.
  split; [reflexivity|].
  apply (@columnar_loader_needs_a_frame
           Sample.healthy "t" (PaTable Sample.tbl0) false 0 false []
           Sample.fresh).
  reflexivity.
Defined.

(** ** Batches of the columnar loader *)

Lemma send_batches_run w table_name column_names batches :
  forall c,
  exists n,
    (n <= List.length batches)%nat /\
    trace (snd (send_batches w table_name batches column_names c))
      = trace c
        ++ map (fun cols =>
                  RpcLoadTableBinaryColumnar table_name cols column_names)
               (firstn n batches) /\
    (forall i cols,
        nth_error batches i = Some cols ->
        (S i < n)%nat ->
        Heavy.load_table_binary_columnar (client w) table_name cols
          column_names
          (trace c
           ++ map (fun cols =>
                     RpcLoadTableBinaryColumnar table_name cols
                                                column_names)
                  (firstn i batches))
        = Ok tt) /\
    (fst (send_batches w table_name batches column_names c) = Ok tt ->
     n = List.length batches /\
     forall i cols,
       nth_error batches i = Some cols ->
       Heavy.load_table_binary_columnar (client w) table_name cols
         column_names
         (trace c
          ++ map (fun cols =>
                    RpcLoadTableBinaryColumnar table_name cols
                                               column_names)
                 (firstn i batches))
       = Ok tt) /\
    (forall e,
        fst (send_batches w table_name batches column_names c) = Raise e ->
        exists cols,
          nth_error batches (n - 1) = Some cols /\
          (1 <= n)%nat /\
          Heavy.load_table_binary_columnar (client w) table_name cols
            column_names
            (trace c
             ++ map (fun cols =>
                       RpcLoadTableBinaryColumnar table_name cols
                                                  column_names)
                    (firstn (n - 1) batches))
          = Raise e).
Proof.
  induction batches as [|cols rest IH]; intros c.
  - exists 0%nat. cbn [send_batches ret fst snd firstn map List.length].
    rewrite app_nil_r.
    split; [lia|]. split; [reflexivity|]. split; [|split].
    + intros i cols0 _ Hi. lia.
    + intros _. split; [reflexivity|].
      intros [|i] cols0 H; discriminate H.
    + intros e H. discriminate H.
  - assert (Hstep :
      send_batches w table_name (cols :: rest) column_names c
        = match Heavy.load_table_binary_columnar (client w) table_name cols
                  column_names (trace c) with
          | Ok _ =>
              send_batches w table_name rest column_names
                (log (RpcLoadTableBinaryColumnar table_name cols
                                                 column_names) c)
          | Raise e =>
              (Raise e,
               log (RpcLoadTableBinaryColumnar table_name cols
                                               column_names) c)
          end) by reflexivity.
    rewrite Hstep. clear Hstep.
    destruct (Heavy.load_table_binary_columnar (client w) table_name cols
                column_names (trace c)) as [[]|e0] eqn:Hrpc.
    + destruct (IH (log (RpcLoadTableBinaryColumnar table_name cols
                                                    column_names) c))
        as (n & Hn & Htrace & Hbefore & Hok & Herr).
      assert (Hshift : forall i cols0,
        nth_error (cols :: rest) i = Some cols0 ->
        (match i with
         | O => True
         | S j =>
             Heavy.load_table_binary_columnar (client w) table_name cols0
               column_names
               (trace (log (RpcLoadTableBinaryColumnar table_name cols
                                                       column_names) c)
                ++ map (fun cols =>
                          RpcLoadTableBinaryColumnar table_name cols
                                                     column_names)
                       (firstn j rest))
             = Ok tt
         end) ->
        Heavy.load_table_binary_columnar (client w) table_name cols0
          column_names
          (trace c
           ++ map (fun cols =>
                     RpcLoadTableBinaryColumnar table_name cols
                                                column_names)
                  (firstn i (cols :: rest)))
        = Ok tt).
      { intros [|j] cols0 Hnth Hj.
        - injection Hnth as <-. cbn [firstn map]. rewrite app_nil_r.
          exact Hrpc.
        - cbn [firstn map]. rewrite trace_log, <- app_assoc in Hj.
          exact Hj. }
      exists (S n). split; [cbn [List.length]; lia|].
      split; [|split; [|split]].
      * rewrite Htrace, trace_log, <- app_assoc. reflexivity.
      * intros i cols0 Hnth Hi. apply Hshift; [exact Hnth|].
        destruct i as [|j]; [exact I|].
        apply Hbefore; [exact Hnth | lia].
      * intros H. destruct (Hok H) as [Hlen Hall].
        split; [cbn [List.length]; f_equal; exact Hlen|].
        intros i cols0 Hnth. apply Hshift; [exact Hnth|].
        destruct i as [|j]; [exact I|].
        apply Hall. exact Hnth.
      * intros e H. destruct (Herr e H) as (cols' & Hnth & Hpos & Hraise).
        exists cols'. destruct n as [|m]; [lia|].
        cbn [Nat.sub] in *. rewrite Nat.sub_0_r in *.
        split; [exact Hnth|]. split; [lia|].
        rewrite trace_log, <- app_assoc in Hraise. exact Hraise.
    + exists 1%nat. cbn [fst snd firstn map Nat.sub nth_error].
      split; [cbn [List.length]; lia|]. split; [reflexivity|].
      split; [|split].
      * intros i cols0 _ Hi. lia.
      * intros H. discriminate H.
      * intros e H. injection H as <-. exists cols.
        rewrite app_nil_r. auto.
Qed.

(** X6.  Once the schema lookup, the column count check and the encoding
    have gone through, [load_table_columnar] sends the batches one
    request each, in the order [build_input_columnar] returned them, and
    stops at the first request that raises.  What it has issued after
    the lookup is the requests for the first [n] batches, and every one
    of them before the last was answered normally.  When the call
    returns, [n] is the number of batches and every request was answered
    normally; when it raises, the error is the answer to the [n]-th
    request, the last one issued. *)
Theorem columnar_batches_go_out_in_order :
  forall w table_name df preserve_index chunk_size_bytes
         (col_names_from_schema : bool) column_names c row_desc details
         batches,
    Heavy.get_table_details (client w) table_name (trace c) = Ok row_desc ->
    _extract_column_details w row_desc = Ok details ->
    List.length details = List.length (columns (frame df)) ->
    build_input_columnar w df preserve_index chunk_size_bytes details
      (if col_names_from_schema then map name details
       else columns (frame df)) = Ok batches ->
    exists n,
      (n <= List.length batches)%nat /\
      issued_by (load_table_columnar w table_name (PdDataFrame df)
                   preserve_index chunk_size_bytes col_names_from_schema
                   column_names) c
        = RpcGetTableDetails table_name
          :: map (fun cols =>
                    RpcLoadTableBinaryColumnar table_name cols column_names)
                 (firstn n batches) /\
      (forall i cols,
          nth_error batches i = Some cols ->
          (S i < n)%nat ->
          Heavy.load_table_binary_columnar (client w) table_name cols
            column_names
            (trace c
             ++ RpcGetTableDetails table_name
             :: map (fun cols =>
                       RpcLoadTableBinaryColumnar table_name cols
                                                  column_names)
                    (firstn i batches))
          = Ok tt) /\
      (fst (load_table_columnar w table_name (PdDataFrame df)
              preserve_index chunk_size_bytes col_names_from_schema
              column_names c) = Ok tt ->
       n = List.length batches /\
       forall i cols,
         nth_error batches i = Some cols ->
         Heavy.load_table_binary_columnar (client w) table_name cols
           column_names
           (trace c
            ++ RpcGetTableDetails table_name
            :: map (fun cols =>
                      RpcLoadTableBinaryColumnar table_name cols
                                                 column_names)
                   (firstn i batches))
         = Ok tt) /\
      (forall e,
          fst (load_table_columnar w table_name (PdDataFrame df)
                 preserve_index chunk_size_bytes col_names_from_schema
                 column_names c) = Raise e ->
          exists cols,
            nth_error batches (n - 1) = Some cols /\
            (1 <= n)%nat /\
            Heavy.load_table_binary_columnar (client w) table_name cols
              column_names
              (trace c
               ++ RpcGetTableDetails table_name
               :: map (fun cols =>
                         RpcLoadTableBinaryColumnar table_name cols
                                                    column_names)
                      (firstn (n - 1) batches))
            = Raise e).
Proof.
  intros w table_name df preserve_index chunk_size_bytes
         col_names_from_schema column_names c row_desc details batches
         Hrpc Hextract Hlen Hbuild.
  assert (Hrun :
    load_table_columnar w table_name (PdDataFrame df) preserve_index
                        chunk_size_bytes col_names_from_schema
                        column_names c
      = send_batches w table_name batches column_names
                     (log (RpcGetTableDetails table_name) c)).
  { unfold load_table_columnar, get_table_details, bind, call, lift.
    rewrite Hrpc, Hextract.
    apply Nat.eqb_eq in Hlen. rewrite Hlen. cbn [negb].
    rewrite Hbuild. reflexivity. }
  destruct (send_batches_run w table_name column_names batches
              (log (RpcGetTableDetails table_name) c))
    as (n & Hn & Htrace & Hbefore & Hok & Herr).
  assert (Hhist : forall i,
    trace (log (RpcGetTableDetails table_name) c)
    ++ map (fun cols =>
              RpcLoadTableBinaryColumnar table_name cols column_names)
           (firstn i batches)
    = trace c
      ++ RpcGetTableDetails table_name
      :: map (fun cols =>
                RpcLoadTableBinaryColumnar table_name cols column_names)
             (firstn i batches)).
  { intros i. rewrite trace_log, <- app_assoc. reflexivity. }
  exists n. split; [exact Hn|]. split; [|split; [|split]].
  - apply issued_by_extension. rewrite Hrun, Htrace. apply Hhist.
  - intros i cols Hnth Hi. rewrite <- Hhist. apply Hbefore; assumption.
  - rewrite Hrun. intros H. destruct (Hok H) as [Hall_n Hall].
    split; [exact Hall_n|].
    intros i cols Hnth. rewrite <- Hhist. apply Hall. exact Hnth.
  - rewrite Hrun. intros e H.
    destruct (Herr e H) as (cols & Hnth & Hpos & Hraise).
    exists cols. split; [exact Hnth|]. split; [exact Hpos|].
    rewrite <- Hhist. exact Hraise.
Qed.

Lemma columnar_batches_go_out_in_order_witness :
  List.length (map Sample.details_of [mkTColumnType "a" "INT"])
    = List.length (columns (frame Sample.caller_frame)) /\
  exists n,
    (n <= 3)%nat /\
    issued_by (load_table_columnar Scenario.refused_batch "t"
                 (PdDataFrame Sample.caller_frame) false 0 false [])
              Sample.fresh
      = RpcGetTableDetails "t"
        :: map (fun cols => RpcLoadTableBinaryColumnar "t" cols [])
               (firstn n [Scenario.batch1; Scenario.batch2;
                          Scenario.batch3]) /\
    (forall e,
        fst (load_table_columnar Scenario.refused_batch "t"
               (PdDataFrame Sample.caller_frame) false 0 false []
               Sample.fresh) = Raise e ->
        exists cols,
          nth_error [Scenario.batch1; Scenario.batch2; Scenario.batch3]
                    (n - 1) = Some cols /\
          (1 <= n)%nat /\
          Heavy.load_table_binary_columnar
            (client Scenario.refused_batch) "t" cols []
            (trace Sample.fresh
             ++ RpcGetTableDetails "t"
             :: map (fun cols => RpcLoadTableBinaryColumnar "t" cols [])
                    (firstn (n - 1)
                       [Scenario.batch1; Scenario.batch2;
                        Scenario.batch3]))
          = Raise e).
Proof.
  split; [reflexivity|].
  destruct (@columnar_batches_go_out_in_order
              Scenario.refused_batch "t" Sample.caller_frame false 0 false
              [] Sample.fresh [mkTColumnType "a" "INT"]
              (map Sample.details_of [mkTColumnType "a" "INT"])
              [Scenario.batch1; Scenario.batch2; Scenario.batch3]
              eq_refl eq_refl eq_refl eq_refl)
    as (n & Hn & Hissued & _ & _ & Herr).
  exists n. split; [exact Hn|]. split; [exact Hissued | exact Herr].
Defined.

(** On a server that refuses the second columnar request, a load in
    three batches sends the first two and raises: the third batch never
    goes out. *)
Lemma refused_batch_stops_the_load :
  load_table_columnar Scenario.refused_batch "t"
    (PdDataFrame Sample.caller_frame) false 0 false [] Sample.fresh
    = (Raise (Foreign "TDBException"),
       mkConn "session" None
              [RpcGetTableDetails "t";
               RpcLoadTableBinaryColumnar "t" Scenario.batch1 [];
               RpcLoadTableBinaryColumnar "t" Scenario.batch2 []]).
Proof. reflexivity. Qed.

(** X7.  The Arrow loader looks the schema up and then sends the whole
    table as one payload: either it has issued the lookup alone and
    raises (the lookup or the serialisation failed), or it has issued
    the lookup and a single Arrow load request carrying what
    [_serialize_arrow_payload] produced from the schema. *)
Theorem arrow_loader_sends_one_payload :
  forall w table_name data preserve_index load_column_names c,
    (issued_by (load_table_arrow w table_name data preserve_index
                                 load_column_names) c
       = [RpcGetTableDetails table_name] /\
     exists e, fst (load_table_arrow w table_name data preserve_index
                                     load_column_names c) = Raise e) \/
    (exists metadata payload,
        fst (get_table_details w table_name c) = Ok metadata /\
        _serialize_arrow_payload w data metadata preserve_index
          = Ok payload /\
        issued_by (load_table_arrow w table_name data preserve_index
                                    load_column_names) c
          = [RpcGetTableDetails table_name;
             RpcLoadTableBinaryArrow table_name payload
                                     load_column_names]).
Proof.
  intros w table_name data preserve_index load_column_names c.
  unfold issued_by, load_table_arrow, get_table_details.
  unfold_monad.
  destruct (Heavy.get_table_details (client w) table_name (trace c))
    as [row_desc|e]; cbn [fst snd].
  - destruct (_extract_column_details w row_desc) as [metadata|e];
      cbn [fst snd].
    + destruct (_serialize_arrow_payload w data metadata preserve_index)
        as [payload|e] eqn:Hser; cbn [fst snd].
      * right. exists metadata, payload.
        split; [reflexivity|]. split; [exact Hser|]. close_issued.
      * left. split; [close_issued | eexists; reflexivity].
    + left. split; [close_issued | eexists; reflexivity].
  - left. split; [close_issued | eexists; reflexivity].
Qed.

(** ** Descriptors on the fetch path *)



(** X9.  Fetching with [release_memory] on is fetching with it off and
    then releasing the returned table with the default device id, on the
    shared-memory path with [deallocate_ipc] and on the GPU path with
    [deallocate_ipc_gpu]: same result, same log, same connection state,
    on every path including the failing ones. *)
Theorem automatic_release_is_fetch_then_release :
  forall w op params device_id first_n c,
    select_ipc w op params first_n true SHARED_MEMORY c
      = bind (select_ipc w op params first_n false SHARED_MEMORY)
             (fun df => bind (deallocate_ipc w df None) (fun _ => ret df))
             c /\
    select_ipc_gpu w op params device_id first_n true c
      = bind (select_ipc_gpu w op params device_id first_n false)
             (fun df => bind (deallocate_ipc_gpu w df None)
                             (fun _ => ret df))
             c.
Proof.
  intros w op params device_id first_n c. split.
  - unfold select_ipc, deallocate_ipc, register_runtime_udfs,
      bind_operation, or_default, set_tdf, plain.
    cbn [transport_eqb]. unfold_monad.
    repeat first [ progress cbn [descriptor_tag frame fst snd]
                 | split_outcome ];
      reflexivity.
  - unfold select_ipc_gpu, deallocate_ipc_gpu, register_runtime_udfs,
      bind_operation, or_default.
    unfold_monad.
    repeat first [ progress cbn [descriptor_tag frame fst snd]
                 | split_outcome ];
      reflexivity.
Qed.

Lemma select_ipc_wire_untagged w op params first_n release_memory c df :
  fst (select_ipc w op params first_n release_memory WIRE c) = Ok df ->
  descriptor_tag df = None.
Proof.
  unfold select_ipc, register_runtime_udfs.
  cbn [transport_eqb]. unfold_monad.
  repeat split_outcome; intros H; try discriminate H.
  injection H as <-. reflexivity.
Qed.

(** X10.  A table fetched over the [WIRE] transport cannot be released:
    whenever and with whatever device id it is passed to
    [deallocate_ipc] or [deallocate_ipc_gpu], the call raises the
    attribute error and issues nothing. *)
Theorem wire_table_cannot_be_released :
  forall w op params first_n release_memory c df,
    fst (select_ipc w op params first_n release_memory WIRE c) = Ok df ->
    forall device_id c',
      deallocate_ipc w df device_id c'
        = (Raise AttributeError_get_tdf, c') /\
      deallocate_ipc_gpu w df device_id c'
        = (Raise AttributeError_get_tdf, c').
Proof.
  intros w op params first_n release_memory c df Hfetch device_id c'.
  pose proof (@select_ipc_wire_untagged w op params first_n release_memory
                                        c df Hfetch) as Htag.
  unfold deallocate_ipc, deallocate_ipc_gpu, get_tdf, bind.
  rewrite Htag. split; reflexivity.
Qed.

Lemma wire_table_cannot_be_released_witness :
  fst (select_ipc Sample.healthy "select 1" None default_first_n
                  default_release_memory WIRE Sample.fresh)
    = Ok Sample.caller_frame /\
  deallocate_ipc Sample.healthy Sample.caller_frame None Sample.fresh
    = (Raise AttributeError_get_tdf, Sample.fresh).
Proof.
  split; [reflexivity|].
  apply (@wire_table_cannot_be_released
           Sample.healthy "select 1" None default_first_n
           default_release_memory Sample.fresh Sample.caller_frame
           eq_refl None Sample.fresh).
Defined.

(** X11.  Without an importable [cudf], [select_ipc_gpu] raises its
    [ImportError] first thing: no UDF registration, no query, and the
    connection is as it was. *)
Theorem gpu_fetch_needs_cudf :
  forall w op params device_id first_n release_memory c,
    cudf_importable w = false ->
    select_ipc_gpu w op params device_id first_n release_memory c
      = (Raise ImportError_cudf, c).
Proof.
  intros w op params device_id first_n release_memory c H.
  unfold select_ipc_gpu. rewrite H. reflexivity.
Qed.

(** X12.  Once UDF registration and parameter binding have gone
    through, what [select_ipc] leaves in the connection's [_tdf] slot is
    decided by the query request alone: the descriptor it returned, on
    every transport and whatever happens to the decoding or the release
    afterwards, or the slot's previous content when the request raised. *)
Theorem query_decides_the_tdf_slot :
  forall w op params first_n release_memory transport_method c op',
    base_register_runtime_udfs w (trace c) = Ok tt ->
    fst (bind_operation w op params (log RegisterRuntimeUdfs c)) = Ok op' ->
    _tdf (snd (select_ipc w op params first_n release_memory
                          transport_method c))
      = match Heavy.sql_execute_df (client w) (strip op') 0 0 first_n
                transport_method (trace c ++ [RegisterRuntimeUdfs]) with
        | Ok tdf => Some tdf
        | Raise _ => _tdf c
        end.
Proof.
  intros w op params first_n release_memory transport_method c op'
         Hreg Hbind.
  unfold select_ipc, register_runtime_udfs.
  unfold bind at 1, call at 1. rewrite Hreg.
  unfold bind at 1. rewrite bind_operation_pure, Hbind.
  unfold deallocate_ipc, or_default, set_tdf, plain.
  unfold_monad. cbn [descriptor_tag]. normalise_logs.
  repeat split_outcome; reflexivity.
Qed.

(** ** The query text *)

Section DropSpaces.

Variable t2 : ascii -> ascii -> bool.
Variable t3 : ascii -> ascii -> ascii -> bool.

Lemma drop_spaces_front :
  forall l, front_space t2 t3 (drop_spaces t2 t3 l) = false.
Proof.
  fix IH 1. intros [|a l1]; [reflexivity|].
  cbn [drop_spaces]. destruct (space1 a) eqn:H1; [apply IH|].
  destruct l1 as [|b l2]; [cbn [front_space]; rewrite H1; reflexivity|].
  destruct (t2 a b) eqn:H2; [apply IH|].
  destruct l2 as [|c l3];
    [cbn [front_space]; rewrite H1, H2; reflexivity|].
  destruct (t3 a b c) eqn:H3; [apply IH|].
  cbn [front_space]. rewrite H1, H2, H3. reflexivity.
Qed.

Lemma drop_spaces_suffix :
  forall l, exists p, l = p ++ drop_spaces t2 t3 l.
Proof.
  fix IH 1. intros [|a l1]; [exists []; reflexivity|].
  cbn [drop_spaces]. destruct (space1 a).
  { destruct (IH l1) as [p Hp]. exists (a :: p).
    cbn [app]. f_equal. exact Hp. }
  destruct l1 as [|b l2]; [exists []; reflexivity|].
  destruct (t2 a b).
  { destruct (IH l2) as [p Hp]. exists (a :: b :: p).
    cbn [app]. do 2 f_equal. exact Hp. }
  destruct l2 as [|c l3]; [exists []; reflexivity|].
  destruct (t3 a b c).
  { destruct (IH l3) as [p Hp]. exists (a :: b :: c :: p).
    cbn [app]. do 3 f_equal. exact Hp. }
  exists []. reflexivity.
Qed.

Lemma front_space_app x y :
  front_space t2 t3 x = true -> front_space t2 t3 (x ++ y) = true.
Proof.
  destruct x as [|a [|b [|c x]]]; cbn [front_space app];
    try discriminate.
  - rewrite orb_false_r. intros ->. reflexivity.
  - rewrite orb_false_r. intros H. apply orb_true_iff in H.
    destruct H as [-> | ->]; [reflexivity|].
    rewrite orb_true_r. reflexivity.
  - intros H. exact H.
Qed.

End DropSpaces.

Lemma strip_no_leading_space s : leading_space (strip s) = false.
Proof.
  unfold leading_space, strip, rstrip, lstrip.
  rewrite !list_ascii_of_string_of_list_ascii.
  set (t := drop_spaces space2 space3 (list_ascii_of_string s)).
  destruct (drop_spaces_suffix space2_back space3_back (rev t))
    as [p Hp].
  set (kept := drop_spaces space2_back space3_back (rev t)) in *.
  destruct (front_space space2 space3 (rev kept)) eqn:E; [|reflexivity].
  pose proof (front_space_app space2 space3 (rev kept) (rev p) E) as H.
  rewrite <- rev_app_distr, <- Hp, rev_involutive in H.
  unfold t in H. rewrite drop_spaces_front in H. discriminate H.
Qed.

Lemma strip_no_trailing_space s : trailing_space (strip s) = false.
Proof.
  unfold trailing_space, strip, rstrip.
  rewrite list_ascii_of_string_of_list_ascii, rev_involutive.
  apply drop_spaces_front.
Qed.

(** X13.  The query text that goes to the server is always stripped:
    any query request [select_ipc] or [select_ipc_gpu] issues carries a
    text with no whitespace character at its front and none at its end.
    The request of [select_ipc] is
    for device type 0 and device 0 with the caller's [first_n] and
    transport; the request of [select_ipc_gpu] is for the caller's
    device and [first_n]. *)
Theorem fetch_sends_stripped_query :
  forall w op params device_id first_n release_memory transport_method c,
    (forall q dt di fn tm,
        In (RpcSqlExecuteDf q dt di fn tm)
           (issued_by (select_ipc w op params first_n release_memory
                                  transport_method) c) ->
        leading_space q = false /\ trailing_space q = false /\
        dt = 0 /\ di = 0 /\ fn = first_n /\ tm = transport_method) /\
    (forall q di fn,
        In (RpcSqlExecuteGdf q di fn)
           (issued_by (select_ipc_gpu w op params device_id first_n
                                      release_memory) c) ->
        leading_space q = false /\ trailing_space q = false /\
        di = device_id /\ fn = first_n).
Proof.
  intros w op params device_id first_n release_memory transport_method c.
  split.
  - intros q dt di fn tm.
    unfold issued_by, select_ipc, deallocate_ipc, register_runtime_udfs,
      bind_operation, or_default, set_tdf, plain.
    unfold_monad.
    repeat first [ progress cbn [descriptor_tag frame fst snd]
                 | split_outcome ];
      normalise_logs; rewrite skipn_length_app; cbn [In]; intros H;
      repeat match goal with
             | H : _ \/ _ |- _ => destruct H as [H|H]
             | H : False |- _ => destruct H
             | H : _ = RpcSqlExecuteDf _ _ _ _ _ |- _ =>
                 first [ discriminate H
                       | injection H as <- <- <- <- <-;
                         repeat split;
                         first [ apply strip_no_leading_space
                               | apply strip_no_trailing_space ] ]
             end.
  - intros q di fn.
    unfold issued_by, select_ipc_gpu, deallocate_ipc_gpu,
      register_runtime_udfs, bind_operation, or_default.
    unfold_monad.
    repeat first [ progress cbn [descriptor_tag frame fst snd]
                 | split_outcome ];
      normalise_logs;
      first [ rewrite skipn_length_app | rewrite skipn_all ];
      cbn [In]; intros H;
      repeat match goal with
             | H : _ \/ _ |- _ => destruct H as [H|H]
             | H : False |- _ => destruct H
             | H : _ = RpcSqlExecuteGdf _ _ _ |- _ =>
                 first [ discriminate H
                       | injection H as <- <- <-;
                         repeat split;
                         first [ apply strip_no_leading_space
                               | apply strip_no_trailing_space ] ]
             end.
Qed.

Lemma gpu_fetch_needs_cudf_witness :
  cudf_importable Scenario.no_cudf = false /\
  select_ipc_gpu Scenario.no_cudf "select 1" None default_device_id
                 default_first_n default_release_memory Sample.fresh
    = (Raise ImportError_cudf, Sample.fresh).
Proof.
  split; [reflexivity|].
  apply (@gpu_fetch_needs_cudf
           Scenario.no_cudf "select 1" None default_device_id
           default_first_n default_release_memory Sample.fresh).
  reflexivity.
Defined.

Lemma query_decides_the_tdf_slot_witness :
  base_register_runtime_udfs Sample.healthy (trace Sample.fresh) = Ok tt /\
  fst (bind_operation Sample.healthy " select 1 " None
                      (log RegisterRuntimeUdfs Sample.fresh))
    = Ok " select 1 " /\
  _tdf (snd (select_ipc Sample.healthy " select 1 " None default_first_n
                        default_release_memory (UNKNOWN_TRANSPORT 7)
                        Sample.fresh))
    = Some Sample.tdf0.
Proof.
  split; [reflexivity|]. split; [reflexivity|].
  apply (@query_decides_the_tdf_slot
           Sample.healthy " select 1 " None default_first_n
           default_release_memory (UNKNOWN_TRANSPORT 7) Sample.fresh
           " select 1 ");
    reflexivity.
Defined.

(** ** Dashboards *)

Lemma str_or_copy_name new_name old :
  str_or new_name (old ++ " (Copy)")%string = copy_name new_name old.
Proof. destruct new_name as [[|a s]|]; reflexivity. Qed.

Lemma duplicate_dashboard_run k id new_name source_remap h d d' :
  Board.get_dashboard k id h = Ok d ->
  (if remap_truthy (remap_or_empty source_remap)
   then Board._change_dashboard_sources k d (remap_or_empty source_remap)
   else Ok d) = Ok d' ->
  duplicate_dashboard k id new_name source_remap h
    = (Board.create_dashboard k (copy_name new_name (dashboard_name d))
         (dashboard_state d') (image_hash d') (dashboard_metadata d')
         (h ++ [RpcGetDashboard id]),
       h ++ [RpcGetDashboard id;
             RpcCreateDashboard (copy_name new_name (dashboard_name d))
               (dashboard_state d') (image_hash d')
               (dashboard_metadata d')]).
Proof.
  intros Hget Hmap.
  unfold duplicate_dashboard, get_dashboard, create_dashboard,
    change_dashboard_sources, Board.bind, Board.call, Board.lift, Board.ret.
  rewrite Hget. rewrite str_or_copy_name.
  destruct (remap_truthy (remap_or_empty source_remap));
    [rewrite Hmap | injection Hmap as <-];
    cbn [with_name dashboard_name dashboard_state image_hash
         dashboard_metadata];
    rewrite <- app_assoc; reflexivity.
Qed.

(** X14.  Without a remapping ([source_remap] left out or empty),
    [duplicate_dashboard] fetches the dashboard and creates one with the
    same state, image hash and metadata; its name is [new_name], or the
    old name followed by [" (Copy)"] when [new_name] is left out or is
    the empty string.  The id the server answers is the result. *)
Theorem duplicate_dashboard_copies_content :
  forall k id new_name source_remap h d,
    Board.get_dashboard k id h = Ok d ->
    remap_or_empty source_remap = [] ->
    duplicate_dashboard k id new_name source_remap h
      = (Board.create_dashboard k (copy_name new_name (dashboard_name d))
           (dashboard_state d) (image_hash d) (dashboard_metadata d)
           (h ++ [RpcGetDashboard id]),
         h ++ [RpcGetDashboard id;
               RpcCreateDashboard (copy_name new_name (dashboard_name d))
                 (dashboard_state d) (image_hash d)
                 (dashboard_metadata d)]) /\
    copy_name None (dashboard_name d)
      = (dashboard_name d ++ " (Copy)")%string /\
    copy_name (Some EmptyString) (dashboard_name d)
      = (dashboard_name d ++ " (Copy)")%string.
Proof.
  intros k id new_name source_remap h d Hget Hempty.
  split; [|split; reflexivity].
  apply duplicate_dashboard_run; [exact Hget|].
  rewrite Hempty. reflexivity.
Qed.

Lemma duplicate_dashboard_copies_content_witness :
  remap_or_empty None = [] /\
  duplicate_dashboard Scenario.board 7 None None []
    = (Ok 8,
       [RpcGetDashboard 7;
        RpcCreateDashboard "Flights (Copy)" "state-of-flights" "hash"
                           "meta"]).
Proof.
  split; [reflexivity|].
  apply (@duplicate_dashboard_copies_content
           Scenario.board 7 None None [] Scenario.flights);
    reflexivity.
Defined.

(** X15.  With a remapping, the state, image hash and metadata of the
    copy are those of the remapped dashboard, but its name is still
    worked out from the dashboard as fetched: [new_name], or the fetched
    name with [" (Copy)"]; a name the remapping sets is overwritten.  When
    the remapping raises, the error propagates and nothing is created. *)
Theorem duplicate_dashboard_names_after_remap :
  forall k id new_name r0 r h d,
    Board.get_dashboard k id h = Ok d ->
    (forall d',
        Board._change_dashboard_sources k d (r0 :: r) = Ok d' ->
        duplicate_dashboard k id new_name (Some (r0 :: r)) h
          = (Board.create_dashboard k
               (copy_name new_name (dashboard_name d))
               (dashboard_state d') (image_hash d') (dashboard_metadata d')
               (h ++ [RpcGetDashboard id]),
             h ++ [RpcGetDashboard id;
                   RpcCreateDashboard
                     (copy_name new_name (dashboard_name d))
                     (dashboard_state d') (image_hash d')
                     (dashboard_metadata d')])) /\
    (forall e,
        Board._change_dashboard_sources k d (r0 :: r) = Raise e ->
        duplicate_dashboard k id new_name (Some (r0 :: r)) h
          = (Raise e, h ++ [RpcGetDashboard id])).
Proof.
  intros k id new_name r0 r h d Hget. split.
  - intros d' Hmap. apply duplicate_dashboard_run; [exact Hget|].
    exact Hmap.
  - intros e Hmap.
    unfold duplicate_dashboard, get_dashboard, change_dashboard_sources,
      Board.bind, Board.call, Board.lift.
    rewrite Hget. cbn [remap_or_empty remap_truthy]. rewrite Hmap.
    reflexivity.
Qed.

Lemma duplicate_dashboard_names_after_remap_witness :
  Board.get_dashboard Scenario.board 7 [] = Ok Scenario.flights /\
  duplicate_dashboard Scenario.board 7 None (Some Scenario.remap0) []
    = (Ok 8,
       [RpcGetDashboard 7;
        RpcCreateDashboard "Flights (Copy)" "state-of-trips" "hash"
                           "meta"]).
Proof.
  split; [reflexivity|].
  refine (proj1 (@duplicate_dashboard_names_after_remap
                   Scenario.board 7 None
                   ("flights", [("name", "trips")]) [] []
                   Scenario.flights _)
                (mkTDashboard "remapped" "state-of-trips" "hash" "meta" 7)
                _);
    reflexivity.
Defined.

(** X16.  [duplicate_dashboard] always starts with the request for the
    dashboard and issues at most a create request after it.  When the
    fetch raises, the error propagates with nothing created; when the
    call returns an id, exactly one dashboard has been created. *)
Theorem duplicate_dashboard_requests :
  forall k id new_name source_remap h,
    exists tail,
      snd (duplicate_dashboard k id new_name source_remap h)
        = h ++ RpcGetDashboard id :: tail /\
      (tail = [] \/
       exists name state hash metadata,
         tail = [RpcCreateDashboard name state hash metadata]) /\
      (forall e,
          Board.get_dashboard k id h = Raise e ->
          duplicate_dashboard k id new_name source_remap h
            = (Raise e, h ++ [RpcGetDashboard id])) /\
      (forall new_id,
          fst (duplicate_dashboard k id new_name source_remap h)
            = Ok new_id ->
          tail <> []).
Proof.
  intros k id new_name source_remap h.
  unfold duplicate_dashboard, get_dashboard, create_dashboard,
    change_dashboard_sources, Board.bind, Board.call, Board.lift, Board.ret.
  destruct (Board.get_dashboard k id h) as [d|e0].
  - destruct (remap_truthy (remap_or_empty source_remap)).
    + destruct (Board._change_dashboard_sources k d
                  (remap_or_empty source_remap)) as [d'|e1].
      * eexists. split; [rewrite <- app_assoc; reflexivity|].
        split; [right; do 4 eexists; reflexivity|].
        split; [intros e H; discriminate H | intros _ _ H; discriminate H].
      * exists []. split; [reflexivity|]. split; [left; reflexivity|].
        split; [intros e H; discriminate H | intros z H; discriminate H].
    + eexists. split; [rewrite <- app_assoc; reflexivity|].
      split; [right; do 4 eexists; reflexivity|].
      split; [intros e H; discriminate H | intros _ _ H; discriminate H].
  - exists []. split; [reflexivity|]. split; [left; reflexivity|].
    split; [intros e H; injection H as <-; reflexivity
           | intros z H; discriminate H].
Qed.

(** ** Rendered images *)

Lemma bytes_by_three (P : list byte -> Prop) :
  P [] ->
  (forall a, P [a]) ->
  (forall a b, P [a; b]) ->
  (forall a b c rest, P rest -> P (a :: b :: c :: rest)) ->
  forall l, P l.
Proof.
  intros H0 H1 H2 H3. fix IH 1.
  intros [|a [|b [|c rest]]];
    [exact H0 | apply H1 | apply H2 | apply H3; apply IH].
Qed.

Lemma b64_index_char n : (n < 64)%nat -> b64_index (b64_char n) = Some n.
Proof.
  intros H.
  do 64 (destruct n as [|n]; [reflexivity|]).
  lia.
Qed.

Lemma b64_char_not_pad n :
  (n < 64)%nat -> Ascii.eqb (b64_char n) b64_pad = false.
Proof.
  intros H.
  do 64 (destruct n as [|n]; [reflexivity|]).
  lia.
Qed.

Lemma b64_char_symbol n : (n < 64)%nat -> b64_symbol (b64_char n) = true.
Proof.
  intros H. unfold b64_symbol. rewrite (b64_index_char H). reflexivity.
Qed.

Lemma byte_below_256 (a : byte) : (Byte.to_nat a < 256)%nat.
Proof. pose proof (Byte.to_nat_bounded a). lia. Qed.

Lemma b64decode_quad s0 s1 s2 s3 rest :
  (s0 < 64)%nat -> (s1 < 64)%nat -> (s2 < 64)%nat -> (s3 < 64)%nat ->
  b64decode (String (b64_char s0) (String (b64_char s1)
               (String (b64_char s2) (String (b64_char s3) rest))))
  = match b64decode rest with
    | Some tail =>
        option_map (fun head => head ++ tail)
          (bytes_of_nats
             [s0 * 4 + Nat.div s1 16;
              Nat.modulo s1 16 * 16 + Nat.div s2 4;
              Nat.modulo s2 4 * 64 + s3]%nat)
    | None => None
    end.
Proof.
  intros H0 H1 H2 H3. cbn [b64decode].
  rewrite (b64_index_char H0), (b64_index_char H1), (b64_index_char H2),
    (b64_index_char H3), (b64_char_not_pad H2), (b64_char_not_pad H3).
  reflexivity.
Qed.

Lemma sextets x y z :
  (x < 256 -> y < 256 -> z < 256 ->
   x / 4 < 64 /\ x mod 4 * 16 + y / 16 < 64 /\
   y mod 16 * 4 + z / 64 < 64 /\ z mod 64 < 64 /\
   x mod 4 * 16 < 64 /\ y mod 16 * 4 < 64)%nat.
Proof. intros. repeat split; lia. Qed.

Lemma regroup x y z :
  (x < 256 -> y < 256 -> z < 256 ->
   x / 4 * 4 + (x mod 4 * 16 + y / 16) / 16 = x /\
   (x mod 4 * 16 + y / 16) mod 16 * 16 + (y mod 16 * 4 + z / 64) / 4 = y /\
   (y mod 16 * 4 + z / 64) mod 4 * 64 + z mod 64 = z)%nat.
Proof. intros. repeat split; lia. Qed.

Lemma regroup_one x :
  (x < 256 -> x / 4 * 4 + (x mod 4 * 16) / 16 = x)%nat.
Proof. intros. lia. Qed.

Lemma regroup_two x y :
  (x < 256 -> y < 256 ->
   x / 4 * 4 + (x mod 4 * 16 + y / 16) / 16 = x /\
   (x mod 4 * 16 + y / 16) mod 16 * 16 + (y mod 16 * 4) / 4 = y)%nat.
Proof. intros. split; lia. Qed.

Lemma bytes_of_nats_to_nat l :
  bytes_of_nats (map Byte.to_nat l) = Some l.
Proof.
  induction l as [|a l IH]; [reflexivity|].
  unfold bytes_of_nats in *. cbn [map fold_right].
  rewrite IH, Byte.of_to_nat. reflexivity.
Qed.

Lemma b64decode_encode l : b64decode (b64encode l) = Some l.
Proof.
  induction l as [|a|a b|a b c rest IH] using bytes_by_three.
  - reflexivity.
  - pose proof (byte_below_256 a) as Ha.
    pose proof (@sextets _ _ _ Ha Ha Ha) as (S0 & _ & _ & _ & S1 & _).
    cbn [b64encode b64decode].
    rewrite (b64_index_char S0), (b64_index_char S1).
    cbn [Ascii.eqb Bool.eqb b64_pad andb is_empty].
    rewrite (@regroup_one _ Ha).
    apply (bytes_of_nats_to_nat [a]).
  - pose proof (byte_below_256 a) as Ha.
    pose proof (byte_below_256 b) as Hb.
    pose proof (@sextets _ _ _ Ha Hb Hb) as (S0 & S1 & _ & _ & _ & S2).
    cbn [b64encode b64decode].
    rewrite (b64_index_char S0), (b64_index_char S1), (b64_index_char S2),
      (b64_char_not_pad S2).
    cbn [Ascii.eqb Bool.eqb b64_pad andb is_empty].
    destruct (@regroup_two _ _ Ha Hb) as [-> ->].
    apply (bytes_of_nats_to_nat [a; b]).
  - pose proof (byte_below_256 a) as Ha.
    pose proof (byte_below_256 b) as Hb.
    pose proof (byte_below_256 c) as Hc.
    pose proof (@sextets _ _ _ Ha Hb Hc) as (S0 & S1 & S2 & S3 & _ & _).
    cbn [b64encode].
    rewrite (b64decode_quad _ S0 S1 S2 S3), IH.
    destruct (@regroup _ _ _ Ha Hb Hc) as (-> & -> & ->).
    pose proof (bytes_of_nats_to_nat [a; b; c]) as E. cbn [map] in E.
    rewrite E. reflexivity.
Qed.

Lemma b64encode_length l :
  String.length (b64encode l) = (4 * ((List.length l + 2) / 3))%nat.
Proof.
  induction l as [|a|a b|a b c rest IH] using bytes_by_three;
    try reflexivity.
  cbn [b64encode String.length List.length]. rewrite IH.
  lia.
Qed.

Lemma b64encode_symbols l :
  forallb b64_symbol (list_ascii_of_string (b64encode l)) = true.
Proof.
  induction l as [|a|a b|a b c rest IH] using bytes_by_three.
  - reflexivity.
  - pose proof (byte_below_256 a) as Ha.
    pose proof (@sextets _ _ _ Ha Ha Ha) as (S0 & _ & _ & _ & S1 & _).
    cbn [b64encode list_ascii_of_string forallb].
    rewrite (b64_char_symbol S0), (b64_char_symbol S1). reflexivity.
  - pose proof (byte_below_256 a) as Ha.
    pose proof (byte_below_256 b) as Hb.
    pose proof (@sextets _ _ _ Ha Hb Hb) as (S0 & S1 & _ & _ & _ & S2).
    cbn [b64encode list_ascii_of_string forallb].
    rewrite (b64_char_symbol S0), (b64_char_symbol S1),
      (b64_char_symbol S2). reflexivity.
  - pose proof (byte_below_256 a) as Ha.
    pose proof (byte_below_256 b) as Hb.
    pose proof (byte_below_256 c) as Hc.
    pose proof (@sextets _ _ _ Ha Hb Hc) as (S0 & S1 & S2 & S3 & _ & _).
    cbn [b64encode list_ascii_of_string forallb].
    rewrite (b64_char_symbol S0), (b64_char_symbol S1),
      (b64_char_symbol S2), (b64_char_symbol S3), IH. reflexivity.
Qed.

(** X17.  The image a [render_vega] result carries as text is the Base64
    encoding of the image the server rendered: decoding [image_data]
    gives back the bytes of the render result, byte for byte.  The call
    issues the one render request. *)
Theorem rendered_image_decodes_back :
  forall k vega compression_level h rv,
    fst (render_vega k vega compression_level h) = Ok rv ->
    exists r,
      Board.render_vega k vega compression_level h = Ok r /\
      _render_result rv = r /\
      b64decode (image_data rv) = Some (image r) /\
      snd (render_vega k vega compression_level h)
        = h ++ [RpcRenderVega vega compression_level].
Proof.
  intros k vega compression_level h rv.
  unfold render_vega, Board.bind, Board.call, Board.ret.
  destruct (Board.render_vega k vega compression_level h) as [r|e];
    cbn [fst snd]; intros H; [|discriminate H].
  injection H as <-. exists r.
  split; [reflexivity|]. split; [reflexivity|]. split; [|reflexivity].
  apply b64decode_encode.
Qed.

Lemma rendered_image_decodes_back_witness :
  fst (render_vega Scenario.board "{}" default_compression_level [])
    = Ok (RenderedVega_init (mkTRenderResult [x4d; x61; x6e] "n")) /\
  exists r,
    Board.render_vega Scenario.board "{}" default_compression_level []
      = Ok r /\
    _render_result (RenderedVega_init (mkTRenderResult [x4d; x61; x6e] "n"))
      = r /\
    b64decode (image_data
                 (RenderedVega_init (mkTRenderResult [x4d; x61; x6e] "n")))
      = Some (image r) /\
    snd (render_vega Scenario.board "{}" default_compression_level [])
      = [] ++ [RpcRenderVega "{}" default_compression_level].
Proof.
  split; [reflexivity|].
  apply (@rendered_image_decodes_back
           Scenario.board "{}" default_compression_level []
           (RenderedVega_init (mkTRenderResult [x4d; x61; x6e] "n"))).
  reflexivity.
Defined.

(** X18.  The text of a rendered image is four characters for every
    three bytes of the image, the last group padded: its length is
    [4 * ceil(n / 3)] for an image of [n] bytes. *)
Theorem rendered_image_text_length :
  forall r,
    String.length (image_data (RenderedVega_init r))
      = (4 * ((List.length (image r) + 2) / 3))%nat.
Proof. intros r. apply b64encode_length. Qed.

(** X19.  The MIME bundle of a rendered image has the Base64 text under
    ['image/png'] and, under ['text/html'], that same text between the
    two halves of an [img] tag.  The text consists of letters, digits,
    [+], [/] and [=] only; in particular it contains no double quote, so
    the image cannot close the [src] attribute it is put in. *)
Theorem mimebundle_embeds_clean_text :
  forall r,
    _repr_mimebundle_ (RenderedVega_init r)
      = [("image/png", b64encode (image r));
         ("text/html",
          ("<img src=" ++ dquote ++ "data:image/png;base64,")
          ++ b64encode (image r)
          ++ (dquote ++ " alt=" ++ dquote ++ "HeavyAI Vega" ++ dquote
              ++ ">"))%string] /\
    (forall c,
        In c (list_ascii_of_string (b64encode (image r))) ->
        b64_symbol c = true /\ c <> ascii_of_nat 34).
Proof.
  intros r. split; [reflexivity|].
  intros c Hc.
  pose proof (b64encode_symbols (image r)) as Hall.
  rewrite forallb_forall in Hall.
  pose proof (Hall c Hc) as Hsym.
  split; [exact Hsym|].
  intros ->. discriminate Hsym.
Qed.

(** ** Row-wise load and table creation on demand *)

(** X20.  With [method='rows'] and [create=False], [load_table] is
    [load_table_rowwise] on the data (a DataFrame being turned into the
    sequence of its tuples first, with the index in front when
    [preserve_index] is set): the whole data goes out in one request,
    and when the encoding of the rows raises nothing goes out at all. *)
Theorem rowwise_load_is_one_request :
  forall w table_name data preserve_index column_names c,
    load_table w table_name data (PyStr "rows") preserve_index
               (PyBool false) column_names c
      = load_table_rowwise w table_name (row_source data preserve_index)
                           column_names c /\
    load_table_rowwise w table_name (row_source data preserve_index)
                       column_names c
      = match _build_input_rows w (row_source data preserve_index) with
        | Ok input_data =>
            (Heavy.load_table (client w) table_name input_data column_names
                              (trace c),
             log (RpcLoadTable table_name input_data column_names) c)
        | Raise e => (Raise e, c)
        end.
Proof.
  intros w table_name data preserve_index column_names c.
  split; [reflexivity|].
  unfold load_table_rowwise, bind, lift, call.
  destruct (_build_input_rows w (row_source data preserve_index));
    reflexivity.
Qed.

Lemma not_in_tables_false table_name tables :
  In table_name tables -> not_in_tables table_name tables = false.
Proof.
  intros H. unfold not_in_tables.
  apply negb_false_iff, existsb_exists.
  exists table_name. split; [exact H | apply String.eqb_refl].
Qed.

Lemma not_in_tables_true table_name tables :
  ~ In table_name tables -> not_in_tables table_name tables = true.
Proof.
  intros H. unfold not_in_tables.
  destruct (existsb (String.eqb table_name) tables) eqn:E; [|reflexivity].
  apply existsb_exists in E. destruct E as (x & Hx & Heq).
  apply String.eqb_eq in Heq. subst x. contradiction.
Qed.

Lemma emits_bind_ret (A B : Type) (p : Event -> bool) (a : A)
      (k : A -> M B) :
  emits p (k a) -> emits p (bind (ret a) k).
Proof. intros H c. exact (H c). Qed.

Lemma load_table_uncreated_emits w table_name data method preserve_index
      column_names :
  emits (fun e => negb (is_create_table e))
        (load_table w table_name data method preserve_index (PyBool false)
                    column_names).
Proof.
  unfold load_table, load_table_arrow, load_table_columnar,
    load_table_rows_tail, get_table_details.
  cbn [py_in existsb py_eq orb negb Bool.eqb py_truthy].
  apply emits_bind_ret. cbn [py_truthy].
  repeat first [ apply send_batches_emits; reflexivity
               | emits_load_step ].
Qed.

(** X21.  Under [create='infer'] the table is created exactly when the
    list the server answers lacks its name.  If the name is on the list,
    the call is the list query followed by the load with [create=False],
    and no create request is issued; if it is not, the call is the list
    query followed by the load with [create=True]. *)
Theorem infer_creates_only_missing_tables :
  forall w table_name data method preserve_index column_names c tables,
    Heavy.get_tables (client w) (trace c) = Ok tables ->
    (In table_name tables ->
     load_table w table_name data method preserve_index (PyStr "infer")
                column_names c
       = load_table w table_name data method preserve_index (PyBool false)
                    column_names (log RpcGetTables c) /\
     count is_create_table
           (issued_by (load_table w table_name data method preserve_index
                                  (PyStr "infer") column_names) c)
       = 0%nat) /\
    (~ In table_name tables ->
     load_table w table_name data method preserve_index (PyStr "infer")
                column_names c
       = load_table w table_name data method preserve_index (PyBool true)
                    column_names (log RpcGetTables c)).
Proof.
  intros w table_name data method preserve_index column_names c tables
         Hget.
  assert (Hrun : forall b,
    not_in_tables table_name tables = b ->
    load_table w table_name data method preserve_index (PyStr "infer")
               column_names c
      = load_table w table_name data method preserve_index (PyBool b)
                   column_names (log RpcGetTables c)).
  { intros b Hb. rewrite load_table_infer_queries.
    unfold bind at 1. unfold get_tables, call. rewrite Hget, Hb.
    reflexivity. }
  split.
  - intros Hin.
    pose proof (Hrun false (not_in_tables_false _ _ Hin)) as E.
    split; [exact E|].
    destruct (@load_table_uncreated_emits w table_name data method
                preserve_index column_names (log RpcGetTables c))
      as (new & Htrace & Hnew).
    rewrite (@issued_by_extension _ _ c (RpcGetTables :: new)).
    + unfold count. cbn [filter is_create_table].
      apply (forallb_negb_count is_create_table new Hnew).
    + rewrite E, Htrace, trace_log, <- app_assoc. reflexivity.
  - intros Hout. exact (Hrun true (not_in_tables_true _ _ Hout)).
Qed.

Lemma infer_creates_only_missing_tables_witness :
  Heavy.get_tables (client Sample.healthy) (trace Sample.fresh)
    = Ok ["flights"] /\
  In "flights" ["flights"] /\
  count is_create_table
        (issued_by (load_table Sample.healthy "flights"
                               (PdDataFrame Sample.caller_frame)
                               (PyStr "arrow") false (PyStr "infer") [])
                   Sample.fresh) = 0%nat.
Proof.
  split; [reflexivity|]. split; [left; reflexivity|].
  refine (proj2 (proj1 (@infer_creates_only_missing_tables
                          Sample.healthy "flights"
                          (PdDataFrame Sample.caller_frame) (PyStr "arrow")
                          false [] Sample.fresh ["flights"] _) _));
    [reflexivity | left; reflexivity].
Defined.

Lemma fetch_sends_stripped_query_witness :
  In (RpcSqlExecuteDf "select 1" 0 0 (-1) WIRE)
     (issued_by (select_ipc Sample.healthy
                   (String (ascii_of_nat 194) (String (ascii_of_nat 160)
                      (" select 1 "
                       ++ String (ascii_of_nat 226)
                            (String (ascii_of_nat 128)
                               (String (ascii_of_nat 131) EmptyString)))))
                   None default_first_n default_release_memory WIRE)
                Sample.fresh) /\
  leading_space "select 1" = false /\
  trailing_space "select 1" = false.
Proof.
  split; [right; left; reflexivity|].
  pose proof
    (proj1 (@fetch_sends_stripped_query
              Sample.healthy
              (String (ascii_of_nat 194) (String (ascii_of_nat 160)
                 (" select 1 "
                  ++ String (ascii_of_nat 226)
                       (String (ascii_of_nat 128)
                          (String (ascii_of_nat 131) EmptyString)))))
              None default_device_id default_first_n
              default_release_memory WIRE Sample.fresh)
           "select 1" 0 0 (-1) WIRE) as H.
  split; apply H; right; left; reflexivity.
Defined.

Lemma duplicate_dashboard_requests_witness :
  fst (duplicate_dashboard Scenario.board 7 (Some "Trips") None []) = Ok 8 /\
  exists tail,
    snd (duplicate_dashboard Scenario.board 7 (Some "Trips") None [])
      = [] ++ RpcGetDashboard 7 :: tail /\
    tail <> [].
Proof.
  split; [reflexivity|].
  destruct (@duplicate_dashboard_requests
              Scenario.board 7 (Some "Trips") None [])
    as (tail & Hsnd & _ & _ & Hok).
  exists tail. split; [exact Hsnd|].
  apply (Hok 8). reflexivity.
Defined.

Lemma mimebundle_embeds_clean_text_witness :
  In "T"%char
     (list_ascii_of_string
        (b64encode (image (mkTRenderResult [x4d; x61; x6e] "n")))) /\
  b64_symbol "T"%char = true /\ "T"%char <> ascii_of_nat 34.
Proof.
  split; [left; reflexivity|].
  apply (proj2 (@mimebundle_embeds_clean_text
                  (mkTRenderResult [x4d; x61; x6e] "n"))).
  left; reflexivity.
Defined.
